(** * update_netbox: hostname parsing, tag derivation and STP root selection

    A shallow embedding of [update_netbox.py].  Device names are Rocq
    strings: a character is a code point below 256, which covers ASCII and
    the Latin-1 supplement.  Python dictionaries used as tables are
    [gmap string string]; [set(...)] is a [gset string]; lists are lists.
    Exceptions are the [Raise] branch of a result type.  Writes to the
    inventory are returned as a list of requests; log lines, argument
    parsing and the thread pool are left out. *)

From Stdlib Require Import ZArith Ascii String.
From stdpp Require Import base option list strings gmap.

Local Open Scope string_scope.

(** ** Python values and builtins used by the script *)

Module Py.

Inductive exn : Type :=
| IndexError
| NameError
| TypeError
| ValueError.

Inductive result (A : Type) : Type :=
| Ok (a : A)
| Raise (e : exn).
Arguments Ok {A} a.
Arguments Raise {A} e.

Definition bind {A B} (m : result A) (f : A -> result B) : result B :=
  match m with
  | Ok a => f a
  | Raise e => Raise e
  end.

(** The values a parsed property can hold. *)
Inductive value : Type :=
| VNone
| VStr (s : string)
| VInt (z : Z).

(** [code c] is [ord(c)]. *)
Definition code (c : ascii) : N := N_of_ascii c.

Definition between (lo hi : N) (c : ascii) : bool :=
  ((lo <=? code c) && (code c <=? hi))%N.

(** [\d] of a str pattern: the decimal digits (category Nd); below code
    point 256 these are 0-9 only. *)
Definition is_digit (c : ascii) : bool := between 48 57 c.

(** [\w] of a str pattern: [str.isalnum()] or the underscore.  Below code
    point 256: 0-9, A-Z, a-z, the feminine and masculine ordinal
    indicators, the micro sign, superscript 1 2 3, the vulgar fractions
    and the Latin-1 letters (multiplication and division sign left out). *)
Definition is_word (c : ascii) : bool :=
  between 48 57 c || between 65 90 c || between 97 122 c
  || (code c =? 95)%N
  || (code c =? 170)%N || (code c =? 181)%N || (code c =? 186)%N
  || between 178 179 c || (code c =? 185)%N || between 188 190 c
  || between 192 214 c || between 216 246 c || between 248 255 c.

(** [str.isspace()] below code point 256. *)
Definition is_space (c : ascii) : bool :=
  between 9 13 c || between 28 32 c || (code c =? 133)%N || (code c =? 160)%N.

Definition digit_value (c : ascii) : Z := Z.of_N (code c) - 48.

Fixpoint lstrip (s : string) : string :=
  match s with
  | String c s' => if is_space c then lstrip s' else s
  | EmptyString => s
  end.

Definition strip (s : string) : string :=
  String.rev (lstrip (String.rev (lstrip s))).

(** The digit part of an integer literal in base 10: digits, with single
    underscores allowed between two digits. *)
Fixpoint digits (acc : Z) (after_digit : bool) (s : string) : option Z :=
  match s with
  | EmptyString => if after_digit then Some acc else None
  | String c s' =>
      if is_digit c then digits (10 * acc + digit_value c) true s'
      else if Ascii.eqb c "_" && after_digit then
             match s' with
             | EmptyString => None
             | String _ _ => digits acc false s'
             end
      else None
  end.

(** [int(x)] for [x] a str or [None]. *)
Definition int (x : option string) : result Z :=
  match x with
  | None => Raise TypeError
  | Some s =>
      let body := strip s in
      let signed :=
        match body with
        | String "+" t => digits 0 false t
        | String "-" t => option_map Z.opp (digits 0 false t)
        | _ => digits 0 false body
        end in
      match signed with
      | Some z => Ok z
      | None => Raise ValueError
      end
  end.

(** Truth value of a str. *)
Definition truthy (s : string) : bool :=
  match s with
  | EmptyString => false
  | String _ _ => true
  end.

(** [table.get(key) or key], for [key] a str or [None]. *)
Definition get_or (table : gmap string string) (key : option string)
  : option string :=
  match key with
  | None => None
  | Some k =>
      match table !! k with
      | Some v => if truthy v then Some v else Some k
      | None => Some k
      end
  end.

(** [needle in haystack] for two strs. *)
Fixpoint contains (needle haystack : string) : bool :=
  String.prefix needle haystack
  || match haystack with
     | EmptyString => false
     | String _ rest => contains needle rest
     end.

End Py.

Notation "'let!' x ':=' m 'in' k" := (Py.bind m (fun x => k))
  (at level 10, x name, m at level 100, k at level 200, only parsing).

(** ** A backtracking matcher for the fragment of [re] the script uses *)

Module Re.

Inductive regex : Type :=
| Bol                              (* ^  *)
| Eol                              (* $  *)
| Chr (c : ascii)                  (* a literal character *)
| Cls (p : ascii -> bool)          (* \w  \d  . *)
| Cat (r1 r2 : regex)
| Alt (r1 r2 : regex)              (* r1|r2 *)
| Opt (r : regex)                  (* r?, greedy *)
| Star (r : regex)                 (* r*, greedy *)
| Rep (n : nat) (r : regex)        (* r{n} *)
| Grp (name : string) (r : regex). (* (?P<name>r) *)

(** Captured groups, the most recent binding first. *)
Definition captures : Type := list (string * string).

(** A continuation receives the offset reached in the subject, the rest of
    the subject from there and the groups captured so far. *)
Definition cont : Type := nat -> string -> captures -> option captures.

Definition orelse (a b : option captures) : option captures :=
  match a with
  | Some c => Some c
  | None => b
  end.

(** [$] without MULTILINE: at the end, or before a newline that ends the
    subject. *)
Definition at_end (s : string) : bool :=
  match s with
  | EmptyString => true
  | String c EmptyString => Ascii.eqb c "010"
  | _ => false
  end.

Definition one (p : ascii -> bool) (k : cont) : cont :=
  fun pos s caps =>
    match s with
    | String c s' => if p c then k (S pos) s' caps else None
    | EmptyString => None
    end.

Fixpoint times (n : nat) (step : cont -> cont) (k : cont) : cont :=
  match n with
  | O => k
  | S n' => step (times n' step k)
  end.

(** Greedy repetition: one more round first, the continuation when that
    fails.  A round that consumes nothing is cut, so [fuel] above the
    length of the rest is never exhausted. *)
Fixpoint star (fuel : nat) (step : cont -> cont) (k : cont) : cont :=
  fun pos s caps =>
    match fuel with
    | O => k pos s caps
    | S fuel' =>
        orelse
          (step (fun pos' s' caps' =>
                   if (pos <? pos')%nat then star fuel' step k pos' s' caps'
                   else None) pos s caps)
          (k pos s caps)
    end.

Fixpoint run (r : regex) (k : cont) : cont :=
  match r with
  | Bol => fun pos s caps => if (pos =? 0)%nat then k pos s caps else None
  | Eol => fun pos s caps => if at_end s then k pos s caps else None
  | Chr c => one (Ascii.eqb c) k
  | Cls p => one p k
  | Cat r1 r2 => run r1 (run r2 k)
  | Alt r1 r2 => fun pos s caps =>
      orelse (run r1 k pos s caps) (run r2 k pos s caps)
  | Opt r1 => fun pos s caps =>
      orelse (run r1 k pos s caps) (k pos s caps)
  | Star r1 => fun pos s caps =>
      star (S (String.length s)) (run r1) k pos s caps
  | Rep n r1 => times n (run r1) k
  | Grp name r1 => fun pos s caps =>
      run r1 (fun pos' s' caps' =>
                k pos' s' ((name, String.substring 0 (pos' - pos) s) :: caps'))
          pos s caps
  end.

Definition accept : cont := fun _ _ caps => Some caps.

(** [pattern.search(subject)]: the first offset at which the pattern
    matches. *)
Fixpoint search_from (r : regex) (pos : nat) (s : string) : option captures :=
  orelse (run r accept pos s [])
         match s with
         | String _ s' => search_from r (S pos) s'
         | EmptyString => None
         end.

Definition search (r : regex) (subject : string) : option captures :=
  search_from r 0 subject.

(** [m.group(name)]: [None] when the group took no part in the match. *)
Fixpoint group (m : captures) (name : string) : option string :=
  match m with
  | [] => None
  | (n, v) :: m' => if String.eqb n name then Some v else group m' name
  end.

(** Pattern syntax. *)
Definition w : regex := Cls Py.is_word.
Definition d : regex := Cls Py.is_digit.
Definition dot : regex := Cls (fun c => negb (Ascii.eqb c "010")).
Fixpoint lit (s : string) : regex :=
  match s with
  | EmptyString => Rep 0 dot
  | String c EmptyString => Chr c
  | String c s' => Cat (Chr c) (lit s')
  end.

Fixpoint seq (rs : list regex) : regex :=
  match rs with
  | [] => Rep 0 dot
  | [r] => r
  | r :: rs' => Cat r (seq rs')
  end.

End Re.

(** ** Module constants *)

(** [HOSTNAME_PATTERN]:
    ^(?P<role>\w{1})(?P<site>\w{3})(?P<floor>\d{2})(?P<subrole>\w{2})
     (?P<index>\d{2})\-?(?P<status>ACT|STB|OLD)?.*$ *)
Definition HOSTNAME_PATTERN : Re.regex :=
  Re.seq
    [ Re.Bol;
      Re.Grp "role" (Re.Rep 1 Re.w);
      Re.Grp "site" (Re.Rep 3 Re.w);
      Re.Grp "floor" (Re.Rep 2 Re.d);
      Re.Grp "subrole" (Re.Rep 2 Re.w);
      Re.Grp "index" (Re.Rep 2 Re.d);
      Re.Opt (Re.Chr "-");
      Re.Opt (Re.Grp "status"
                (Re.Alt (Re.lit "ACT") (Re.Alt (Re.lit "STB") (Re.lit "OLD"))));
      Re.Star Re.dot;
      Re.Eol ].

Definition NETBOX_TAGS : list string :=
  [ "access-switch"; "core-router"; "distribution-switch"; "edge-router";
    "primary"; "secondary"; "active"; "standby" ].

Definition HOSTNAME_ROLE_MAP : gmap string string :=
  list_to_map
    [ ("O", "wan-accelerator"); ("R", "router"); ("S", "switch");
      ("V", "voice-gateway"); ("W", "wireless-controller") ].

Definition HOSTNAME_SUBROLE_MAP : gmap string string :=
  list_to_map
    [ ("AC", "access-switch"); ("CR", "core-router");
      ("DS", "distribution-switch"); ("ER", "edge-router");
      ("LB", "load-balancer"); ("SS", "server-switch");
      ("TS", "console-server"); ("VG", "voice-gateway");
      ("WA", "wan-router"); ("WC", "wireless-controller");
      ("WO", "wan-accelerator") ].

Definition HOSTNAME_STATUS_MAP : gmap string string :=
  list_to_map [ ("ACT", "active"); ("STB", "standby"); ("OLD", "legacy") ].

Definition PLATFORM_TAG_MAP : gmap string string :=
  list_to_map
    [ ("Network-Arista", "eos"); ("Network-IOS", "ios");
      ("Network-IOS-XE", "ios"); ("Network-Juniper", "junos");
      ("Network-NXOS", "nxos"); ("Network-Riverbed", "rios");
      ("Network-WLC", "aireos") ].

(** ** Records *)

(** A platform as the inventory returns it. *)
Record platform : Type := { platform_id : Z; platform_slug : string }.

(** A device as the inventory returns it: the keys the script reads. *)
Record nb_device : Type := {
  dev_id : Z;
  dev_name : string;
  dev_tags : list string;
  dev_platform : option platform;
  dev_model : string  (* device["device_type"]["model"] *)
}.

(** The [parsed_props] dictionary: six keys, each [None] until set. *)
Record props : Type := {
  role : option string;
  site : option string;
  floor : option Z;
  subrole : option string;
  index : option Z;
  status : option string
}.

(** A device after [parse_hostname] has added the key [parsed_props]. *)
Record device : Type := { record : nb_device; parsed_props : props }.

(** The writes the script sends to the inventory. *)
Inductive request : Type :=
| UpdateDeviceById (device_id : Z) (platform : option Z)
| UpdateDevice (device_name : string) (tags : list string).

Record stp_root : Type := { primary : option device; secondary : option device }.

(** ** Platform verification *)

(** [platforms] is a global name that the module never binds ([main] binds a
    local of that name): [None] stands for the unbound name. *)
Definition get_platform_id (platforms : option (list platform))
    (slug : string) : Py.result (option Z) :=
  match platforms with
  | None => Py.Raise Py.NameError
  | Some ps =>
      Py.Ok (platform_id <$> head (filter (fun p => platform_slug p = slug) ps))
  end.

(** Log lines are left out; the result is the list of writes sent. *)
Definition verify_platform (platforms : option (list platform))
    (dev : nb_device) : Py.result (list request) :=
  match dev_platform dev with
  | Some _ => Py.Ok []
  | None =>
      let! tag := match dev_tags dev with
                  | t :: _ => Py.Ok t
                  | [] => Py.Raise Py.IndexError
                  end in
      match PLATFORM_TAG_MAP !! tag with
      | Some slug =>
          if Py.truthy slug then
            let! pid := get_platform_id platforms slug in
            Py.Ok [UpdateDeviceById (dev_id dev) pid]
          else Py.Ok []
      | None => Py.Ok []
      end
  end.

(** ** Hostname parsing *)

Definition no_props : props :=
  {| role := None; site := None; floor := None;
     subrole := None; index := None; status := None |}.

Definition parse_props (hostname : string) : Py.result props :=
  match Re.search HOSTNAME_PATTERN hostname with
  | Some parsed_hostname =>
      let role_code := Re.group parsed_hostname "role" in
      let site_code := Re.group parsed_hostname "site" in
      let floor_digits := Re.group parsed_hostname "floor" in
      let subrole_code := Re.group parsed_hostname "subrole" in
      let index_digits := Re.group parsed_hostname "index" in
      let status_code := Re.group parsed_hostname "status" in
      let! floor_int := Py.int floor_digits in
      let! index_int := Py.int index_digits in
      Py.Ok {| role := Py.get_or HOSTNAME_ROLE_MAP role_code;
               site := site_code;
               floor := Some floor_int;
               subrole := Py.get_or HOSTNAME_SUBROLE_MAP subrole_code;
               index := Some index_int;
               status := Py.get_or HOSTNAME_STATUS_MAP status_code |}
  | None => Py.Ok no_props
  end.

Definition parse_hostname (dev : nb_device) : Py.result device :=
  let! parsed := parse_props (dev_name dev) in
  Py.Ok {| record := dev; parsed_props := parsed |}.

(** ** STP root selection *)

Definition get_devices_with_subrole (devices : list device) (wanted : string)
    : list device :=
  filter (fun x => subrole (parsed_props x) = Some wanted) devices.

(** One round of the loop body, the same in both branches. *)
Definition stp_scan (result : stp_root) (switch : device) : stp_root :=
  let result :=
    if decide (index (parsed_props switch) = Some 1%Z)
    then {| primary := Some switch; secondary := secondary result |}
    else result in
  if decide (index (parsed_props switch) = Some 2%Z)
  then {| primary := primary result; secondary := Some switch |}
  else result.

Definition get_stp_root (devices : list device) : stp_root :=
  let result := {| primary := None; secondary := None |} in
  let distribution_switches :=
    get_devices_with_subrole devices "distribution-switch" in
  match distribution_switches with
  | _ :: _ => foldl stp_scan result distribution_switches
  | [] =>
      let core_routers := get_devices_with_subrole devices "core-router" in
      foldl stp_scan result core_routers
  end.

(** ** Tag derivation *)

(** [parsed_props.values()], in key order. *)
Definition props_values (p : props) : list Py.value :=
  let str o := from_option Py.VStr Py.VNone o in
  let int o := from_option Py.VInt Py.VNone o in
  [ str (role p); str (site p); int (floor p);
    str (subrole p); int (index p); str (status p) ].

(** [prop in NETBOX_TAGS] holds for strs only; the tag appended is the str. *)
Definition netbox_tag (v : Py.value) : option string :=
  match v with
  | Py.VStr s => if decide (s ∈ NETBOX_TAGS) then Some s else None
  | _ => None
  end.

(** [device_tags] after the first loop.  The guard [if device["parsed_props"]]
    always holds: the dictionary has its six keys. *)
Definition parsed_tags (p : props) : list string :=
  omap netbox_tag (props_values p).

(** [device_tags] after the primary and secondary block. *)
Definition ranked_tags (p : props) : list string :=
  let device_tags := parsed_tags p in
  if decide ("distribution-switch" ∈ device_tags ∨ "core-router" ∈ device_tags)
  then
    let device_tags :=
      if decide (index p = Some 1%Z) then (device_tags ++ ["primary"])%list
      else device_tags in
    if decide (index p = Some 2%Z) then (device_tags ++ ["secondary"])%list
    else device_tags
  else device_tags.

(** [device_tags] after the 3750/3850 block. *)
Definition stacked_tags (model : string) (p : props) : list string :=
  let device_tags := ranked_tags p in
  if decide ("core-router" ∈ device_tags)
  then
    if Py.contains "3850" model || Py.contains "3750" model
    then (device_tags ++ ["access-switch"])%list
    else device_tags
  else device_tags.

(** [list(set(device_tags))]: the order of the result is the set's own. *)
Definition get_device_tags (dev : device) : list string :=
  let device_tags := stacked_tags (dev_model (record dev)) (parsed_props dev) in
  elements (list_to_set device_tags : gset string).

(** ** Tag update *)

Definition update_device_tags (dev : device) : list request :=
  let device_tags := get_device_tags dev in
  match device_tags with
  | _ :: _ =>
      let update_tags :=
        filter (fun tag => tag ∉ dev_tags (record dev)) device_tags in
      [UpdateDevice (dev_name (record dev)) update_tags]
  | [] => []
  end.

(** The tags the script submits for a device. *)
Definition submitted_tags (dev : device) : list string :=
  flat_map (fun r => match r with
                     | UpdateDevice _ ts => ts
                     | UpdateDeviceById _ _ => []
                     end) (update_device_tags dev).

(** Modelled from the spec: the inventory's handling of the [tags] field of
    [netbox.dcim.update_device] is outside the repository; section 4.4 of the
    spec takes the submitted tags as tags to add to the device's tag set. *)
Definition apply_request (current : list string) (r : request) : list string :=
  match r with
  | UpdateDevice _ ts => (current ++ ts)%list
  | UpdateDeviceById _ _ => current
  end.

Definition tags_after_update (dev : device) : list string :=
  foldl apply_request (dev_tags (record dev)) (update_device_tags dev).

(** ** Re-encoding of labels into codes *)

(** Follows the spec's words (section 8): a normalized label is turned back
    into the short code whose table entry it is; a value that no table entry
    produces is kept as it is. *)
Definition encode (table : gmap string string) (label : string) : string :=
  match filter (fun kv => kv.2 = label) (map_to_list table) with
  | (code, _) :: _ => code
  | [] => label
  end.

Definition encode_role (p : props) : option string :=
  encode HOSTNAME_ROLE_MAP <$> role p.
Definition encode_subrole (p : props) : option string :=
  encode HOSTNAME_SUBROLE_MAP <$> subrole p.
Definition encode_status (p : props) : option string :=
  encode HOSTNAME_STATUS_MAP <$> status p.

(** ** The hostname pattern read as a fixed-width format

    What [HOSTNAME_PATTERN] accepts, written out position by position;
    [search_hostname] below proves that the matcher computes exactly this. *)

(** [.*$]: no newline in the rest, except one that ends the subject. *)
Fixpoint line_tail (s : string) : bool :=
  match s with
  | EmptyString => true
  | String c s' =>
      if Ascii.eqb c "010"
      then match s' with EmptyString => true | String _ _ => false end
      else line_tail s'
  end.

Definition strip_dash (s : string) : string :=
  match s with
  | String c s' => if Ascii.eqb "-" c then s' else s
  | EmptyString => s
  end.

Fixpoint starts_with (p s : string) : bool :=
  match p, s with
  | EmptyString, _ => true
  | String a p', String b s' => Ascii.eqb a b && starts_with p' s'
  | String _ _, EmptyString => false
  end.

Definition status_of (s : string) : option string :=
  if starts_with "ACT" s then Some "ACT"
  else if starts_with "STB" s then Some "STB"
  else if starts_with "OLD" s then Some "OLD"
  else None.

Definition status_capture (rest : string) : Re.captures :=
  match status_of (strip_dash rest) with
  | Some c => [("status", c)]
  | None => []
  end.

Definition status_alts : Re.regex :=
  Re.Alt (Re.lit "ACT") (Re.Alt (Re.lit "STB") (Re.lit "OLD")).

Definition hostname_tail : Re.regex :=
  Re.seq
    [ Re.Opt (Re.Chr "-");
      Re.Opt (Re.Grp "status" status_alts);
      Re.Star Re.dot;
      Re.Eol ].

Definition hostname_fields (s : string) : option Re.captures :=
  match s with
  | String r (String s1 (String s2 (String s3 (String f1 (String f2
      (String u1 (String u2 (String i1 (String i2 rest))))))))) =>
      if Py.is_word r && (Py.is_word s1 && Py.is_word s2 && Py.is_word s3)
         && (Py.is_digit f1 && Py.is_digit f2)
         && (Py.is_word u1 && Py.is_word u2)
         && (Py.is_digit i1 && Py.is_digit i2)
         && line_tail rest
      then Some (status_capture rest ++
                 [ ("index", String i1 (String i2 ""));
                   ("subrole", String u1 (String u2 ""));
                   ("floor", String f1 (String f2 ""));
                   ("site", String s1 (String s2 (String s3 "")));
                   ("role", String r "") ])%list
      else None
  | _ => None
  end.

(** A matching hostname together with its match object. *)
Inductive matched : string -> Re.captures -> Prop :=
| Matched (r s1 s2 s3 f1 f2 u1 u2 i1 i2 : ascii) (rest : string) :
    Py.is_word r = true ->
    Py.is_word s1 = true -> Py.is_word s2 = true -> Py.is_word s3 = true ->
    Py.is_digit f1 = true -> Py.is_digit f2 = true ->
    Py.is_word u1 = true -> Py.is_word u2 = true ->
    Py.is_digit i1 = true -> Py.is_digit i2 = true ->
    line_tail rest = true ->
    matched
      (String r (String s1 (String s2 (String s3 (String f1 (String f2
         (String u1 (String u2 (String i1 (String i2 rest))))))))))
      (status_capture rest ++
       [ ("index", String i1 (String i2 ""));
         ("subrole", String u1 (String u2 ""));
         ("floor", String f1 (String f2 ""));
         ("site", String s1 (String s2 (String s3 "")));
         ("role", String r "") ])%list.

(** ** The rest of the script *)

(** [s.split(sep)] for a separator of one character: the pieces between the
    separators, empty pieces kept. *)
Fixpoint split (sep : ascii) (s : string) : list string :=
  match s with
  | EmptyString => [EmptyString]
  | String c s' =>
      if Ascii.eqb c sep then EmptyString :: split sep s'
      else match split sep s' with
           | piece :: pieces => String c piece :: pieces
           | [] => [String c EmptyString]
           end
  end.

(** [sep.join(pieces)]. *)
Fixpoint join (sep : string) (pieces : list string) : string :=
  match pieces with
  | [] => EmptyString
  | [piece] => piece
  | piece :: rest => piece ++ sep ++ join sep rest
  end.

(** [arg_list]: the comma-separated values of an option. *)
Definition arg_list (s : string) : list string := split "," s.

(** [c in s] for a character [c]. *)
Fixpoint has_char (c : ascii) (s : string) : bool :=
  match s with
  | EmptyString => false
  | String c' s' => Ascii.eqb c' c || has_char c s'
  end.

(** [s.count(c)] for a character [c]. *)
Fixpoint count_char (c : ascii) (s : string) : nat :=
  match s with
  | EmptyString => 0
  | String c' s' => (if Ascii.eqb c' c then 1 else 0) + count_char c s'
  end.

(** [list(map(parse_hostname, devices))] in [main]: the names are parsed in
    order, and the first exception ends the run. *)
Fixpoint parse_devices (devices : list nb_device) : Py.result (list device) :=
  match devices with
  | [] => Py.Ok []
  | dev :: rest =>
      let! d := parse_hostname dev in
      let! ds := parse_devices rest in
      Py.Ok (d :: ds)
  end.


(** The group [get_stp_root] scans: the distribution switches when there is
    one, the core routers otherwise. *)
Definition stp_candidates (devices : list device) : list device :=
  match get_devices_with_subrole devices "distribution-switch" with
  | [] => get_devices_with_subrole devices "core-router"
  | switch :: switches => switch :: switches
  end.

(** What identifies a candidate in the scan: its parsed subrole and index. *)
Definition stp_key (d : device) : option string * option Z :=
  (subrole (parsed_props d), index (parsed_props d)).

(** ** Devices used in the examples *)

Definition bare_device : nb_device :=
  {| dev_id := 7; dev_name := "shortname"; dev_tags := [];
     dev_platform := None; dev_model := "WS-C2960" |}.

Definition access_device : nb_device :=
  {| dev_id := 12; dev_name := "RFUL01AC02-ACT-extra";
     dev_tags := ["Network-IOS"]; dev_platform := None;
     dev_model := "WS-C3850-24" |}.

Definition unknown_device : nb_device :=
  {| dev_id := 3; dev_name := "XFUL01ZZ02"; dev_tags := [];
     dev_platform := None; dev_model := "N9K-C93180" |}.

Definition props_of (sub : string) (ix : Z) : props :=
  {| role := Some "switch"; site := Some "FUL"; floor := Some 1%Z;
     subrole := Some sub; index := Some ix; status := None |}.

Definition device_of (id : Z) (name model : string) (tags : list string)
    (p : props) : device :=
  {| record := {| dev_id := id; dev_name := name; dev_tags := tags;
                  dev_platform := None; dev_model := model |};
     parsed_props := p |}.

Definition dist1 : device :=
  device_of 21 "SFUL01DS01" "N9K-C93180" [] (props_of "distribution-switch" 1).
Definition dist1b : device :=
  device_of 22 "SFUL02DS01" "N9K-C93180" [] (props_of "distribution-switch" 1).
Definition dist3 : device :=
  device_of 23 "SFUL01DS03" "N9K-C93180" [] (props_of "distribution-switch" 3).
Definition core2 : device :=
  device_of 24 "RFUL01CR02" "WS-C3850-24" [] (props_of "core-router" 2).
Definition unparsed_device : device :=
  {| record := bare_device; parsed_props := no_props |}.
Definition core1 : device :=
  device_of 25 "RFUL01CR01" "WS-C3850-24" ["legacy-tag"; "core-router"]
    (props_of "core-router" 1).


Definition tagged_core : device :=
  device_of 26 "RFUL01CR09" "N9K-C93180" ["core-router"; "spare"]
    (props_of "core-router" 9).

Definition two_line_device : nb_device :=
  {| dev_id := 31;
     dev_name := "RFUL01AC02-ACT" ++ String "010" "rack 4";
     dev_tags := []; dev_platform := None; dev_model := "WS-C3850-24" |}.

Definition active_device : nb_device :=
  {| dev_id := 41; dev_name := "SFUL02DS01ACT"; dev_tags := [];
     dev_platform := None; dev_model := "N9K-C93180" |}.

Definition active_device_note : nb_device :=
  {| dev_id := 42; dev_name := "SFUL02DS01ACT-spare-stack"; dev_tags := [];
     dev_platform := None; dev_model := "N9K-C93180" |}.

Definition newline_device : nb_device :=
  {| dev_id := 43; dev_name := "SFUL02DS01ACT" ++ String "010" EmptyString;
     dev_tags := []; dev_platform := None; dev_model := "N9K-C93180" |}.

Definition inventory_platforms : list platform :=
  [ {| platform_id := 1; platform_slug := "eos" |};
    {| platform_id := 4; platform_slug := "ios" |};
    {| platform_id := 9; platform_slug := "ios" |} ].

Definition access_device_retagged : nb_device :=
  {| dev_id := 12; dev_name := "RFUL01AC02"; 
     dev_tags := ["Network-IOS"; "Network-NXOS"]; dev_platform := None;
     dev_model := "WS-C3750X" |}.

(** * Properties *)

(** ** The matcher on the hostname pattern *)

Section Matcher.

Lemma orelse_None a : Re.orelse a None = a.
Proof. destruct a; reflexivity. Qed.

(** A pattern that starts with [^] matches at offset 0 only. *)
Lemma search_from_bol r s pos :
  Re.search_from (Re.Cat Re.Bol r) (S pos) s = None.
Proof.
  revert pos. induction s as [|c s IH]; intros pos; cbn.
  - reflexivity.
  - apply IH.
Qed.

Lemma search_anchored r s :
  Re.search (Re.Cat Re.Bol r) s = Re.run r Re.accept 0 s [].
Proof.
  unfold Re.search. destruct s as [|c s]; cbn.
  - apply orelse_None.
  - rewrite search_from_bol. apply orelse_None.
Qed.

Lemma line_tail_skip c s :
  Ascii.eqb c "010" = false -> line_tail (String c s) = line_tail s.
Proof. intros H. cbn [line_tail]. rewrite H. reflexivity. Qed.

Lemma star_dot_eol fuel pos s caps :
  (String.length s < fuel)%nat ->
  Re.star fuel (Re.run Re.dot) (Re.run Re.Eol Re.accept) pos s caps
  = if line_tail s then Some caps else None.
Proof.
  revert fuel pos. induction s as [|c s IH]; intros fuel pos Hlt.
  - destruct fuel as [|fuel]; [inversion Hlt|]. reflexivity.
  - destruct fuel as [|fuel]; [inversion Hlt|].
    cbn [Re.star Re.run Re.dot Re.one line_tail Re.at_end Re.accept].
    destruct (Ascii.eqb c "010") eqn:Hc; cbn [negb].
    + destruct s; reflexivity.
    + replace (pos <? S pos)%nat with true
        by (symmetry; apply Nat.ltb_lt; lia).
      rewrite IH by (cbn in Hlt; lia).
      destruct (line_tail s) eqn:Ht; [reflexivity|].
      destruct s; [discriminate Ht|]. reflexivity.
Qed.

Lemma run_star_eol pos s caps :
  Re.run (Re.Cat (Re.Star Re.dot) Re.Eol) Re.accept pos s caps
  = if line_tail s then Some caps else None.
Proof.
  change (Re.star (S (String.length s)) (Re.run Re.dot)
            (Re.run Re.Eol Re.accept) pos s caps
          = if line_tail s then Some caps else None).
  apply star_dot_eol. lia.
Qed.

Lemma sub3 pos : (S (S (S pos)) - pos = 3)%nat.
Proof. lia. Qed.

Lemma substring_0_0 s : String.substring 0 0 s = "".
Proof. destruct s; reflexivity. Qed.

Ltac split_eqb :=
  repeat match goal with
         | |- context [Ascii.eqb ?x ?y] =>
             is_var y; destruct (Ascii.eqb_spec x y); [subst y|]
         end.

(** The optional status group in front of any continuation that only
    looks at the line tail: backtracking out of the group cannot help. *)
Lemma run_status (K : Re.cont) pos s caps :
  (forall pos s caps, K pos s caps = if line_tail s then Some caps else None) ->
  Re.run (Re.Opt (Re.Grp "status" status_alts)) K pos s caps
  = if line_tail s
    then Some (match status_of s with
               | Some c => [("status", c)]
               | None => []
               end ++ caps)%list
    else None.
Proof.
  intros HK. unfold status_alts, status_of.
  cbn [Re.run Re.lit Re.one].
  destruct s as [|a [|b [|c s]]]; cbn [Re.one starts_with]; split_eqb;
    cbn [andb Re.orelse Ascii.eqb Bool.eqb];
    rewrite ?sub3, ?HK; cbn [String.substring app];
    rewrite ?substring_0_0, ?line_tail_skip by reflexivity;
    try destruct (line_tail _); reflexivity.
Qed.

Lemma run_hostname_tail pos s caps :
  Re.run hostname_tail Re.accept pos s caps
  = if line_tail s then Some (status_capture s ++ caps)%list else None.
Proof.
  unfold hostname_tail, status_capture, strip_dash.
  change (Re.orelse
            (Re.one (Ascii.eqb "-")
               (Re.run (Re.Opt (Re.Grp "status" status_alts))
                  (Re.run (Re.Cat (Re.Star Re.dot) Re.Eol) Re.accept))
               pos s caps)
            (Re.run (Re.Opt (Re.Grp "status" status_alts))
               (Re.run (Re.Cat (Re.Star Re.dot) Re.Eol) Re.accept) pos s caps)
          = if line_tail s
            then Some (match status_of
                               match s with
                               | String c s' =>
                                   if Ascii.eqb "-" c then s' else s
                               | EmptyString => s
                               end with
                       | Some c => [("status", c)]
                       | None => []
                       end ++ caps)%list
            else None).
  destruct s as [|c s]; cbn [Re.one].
  - rewrite run_status by apply run_star_eol. reflexivity.
  - destruct (Ascii.eqb_spec "-" c) as [<-|Hc].
    + rewrite !run_status by apply run_star_eol.
      rewrite line_tail_skip by reflexivity.
      destruct (line_tail s); reflexivity.
    + rewrite run_status by apply run_star_eol. reflexivity.
Qed.

Lemma HOSTNAME_PATTERN_split :
  HOSTNAME_PATTERN
  = Re.Cat Re.Bol
      (Re.Cat (Re.Grp "role" (Re.Rep 1 Re.w))
         (Re.Cat (Re.Grp "site" (Re.Rep 3 Re.w))
            (Re.Cat (Re.Grp "floor" (Re.Rep 2 Re.d))
               (Re.Cat (Re.Grp "subrole" (Re.Rep 2 Re.w))
                  (Re.Cat (Re.Grp "index" (Re.Rep 2 Re.d)) hostname_tail))))).
Proof. reflexivity. Qed.

(** [pattern.search] on the hostname pattern is the fixed-width reading. *)
Lemma search_hostname s :
  Re.search HOSTNAME_PATTERN s = hostname_fields s.
Proof.
  rewrite HOSTNAME_PATTERN_split, search_anchored.
  cbn [Re.run Re.times Re.w Re.d].
  generalize run_hostname_tail. generalize (Re.run hostname_tail Re.accept).
  intros K HK. unfold hostname_fields.
  do 10 (destruct s as [|? s];
         [cbn [Re.one];
          repeat (destruct (Py.is_word _) || destruct (Py.is_digit _));
          reflexivity|]).
  cbn [Re.one].
  repeat match goal with
         | |- context [Py.is_word ?c] => destruct (Py.is_word c)
         | |- context [Py.is_digit ?c] => destruct (Py.is_digit c)
         end; cbn [andb]; try reflexivity.
  cbn [Nat.sub String.substring]. rewrite !substring_0_0, HK.
  reflexivity.
Qed.

End Matcher.

(** ** The parser *)

Section Parser.

Lemma search_hostname_inv s m :
  Re.search HOSTNAME_PATTERN s = Some m -> matched s m.
Proof.
  rewrite search_hostname. unfold hostname_fields.
  do 10 (destruct s as [|? s]; [discriminate|]).
  destruct (_ && _) eqn:Hshape; [|discriminate].
  intros [= <-].
  repeat match goal with
         | H : _ && _ = true |- _ => apply andb_prop in H as [? ?]
         end.
  constructor; assumption.
Qed.

Lemma search_short s :
  (String.length s < 10)%nat -> Re.search HOSTNAME_PATTERN s = None.
Proof.
  rewrite search_hostname. unfold hostname_fields.
  do 10 (destruct s as [|? s]; [reflexivity|]).
  cbn [String.length]. lia.
Qed.

Lemma digit_cases c :
  Py.is_digit c = true ->
  c ∈ ["0"; "1"; "2"; "3"; "4"; "5"; "6"; "7"; "8"; "9"]%char.
Proof.
  destruct c as [[] [] [] [] [] [] [] []]; vm_compute; intros H;
    try discriminate H; set_solver.
Qed.

Lemma int_two_digits a b :
  Py.is_digit a = true -> Py.is_digit b = true ->
  Py.int (Some (String a (String b "")))
  = Py.Ok (10 * Py.digit_value a + Py.digit_value b)%Z.
Proof.
  intros Ha Hb. apply digit_cases in Ha, Hb.
  repeat (apply elem_of_cons in Ha as [->|Ha]);
    try (apply elem_of_nil in Ha; contradiction);
    repeat (apply elem_of_cons in Hb as [->|Hb]);
    try (apply elem_of_nil in Hb; contradiction);
    vm_compute; reflexivity.
Qed.

(** The groups of a match, by name. *)
Lemma matched_groups s m :
  matched s m ->
  exists r site f1 f2 sub i1 i2 rest,
    s = (String r site ++ String f1 (String f2 "") ++ sub
         ++ String i1 (String i2 "") ++ rest)
    /\ String.length site = 3%nat /\ String.length sub = 2%nat
    /\ Py.is_digit f1 = true /\ Py.is_digit f2 = true
    /\ Py.is_digit i1 = true /\ Py.is_digit i2 = true
    /\ Re.group m "role" = Some (String r "")
    /\ Re.group m "site" = Some site
    /\ Re.group m "floor" = Some (String f1 (String f2 ""))
    /\ Re.group m "subrole" = Some sub
    /\ Re.group m "index" = Some (String i1 (String i2 ""))
    /\ Re.group m "status" = status_of (strip_dash rest).
Proof.
  intros []. 
  exists r, (String s1 (String s2 (String s3 ""))), f1, f2,
    (String u1 (String u2 "")), i1, i2, rest.
  unfold status_capture.
  destruct (status_of (strip_dash rest)); cbn; repeat split; assumption.
Qed.

Lemma parse_props_match s m :
  Re.search HOSTNAME_PATTERN s = Some m ->
  exists fl ix,
    Py.int (Re.group m "floor") = Py.Ok fl
    /\ Py.int (Re.group m "index") = Py.Ok ix
    /\ parse_props s
       = Py.Ok {| role := Py.get_or HOSTNAME_ROLE_MAP (Re.group m "role");
                  site := Re.group m "site";
                  floor := Some fl;
                  subrole := Py.get_or HOSTNAME_SUBROLE_MAP (Re.group m "subrole");
                  index := Some ix;
                  status := Py.get_or HOSTNAME_STATUS_MAP (Re.group m "status") |}.
Proof.
  intros Hm. unfold parse_props. rewrite Hm.
  apply search_hostname_inv, matched_groups in Hm
    as (r & st & f1 & f2 & sub & i1 & i2 & rest & _ & _ & _
        & Hf1 & Hf2 & Hi1 & Hi2 & _ & _ & Hfl & _ & Hix & _).
  rewrite Hfl, Hix, !int_two_digits by assumption.
  eexists _, _. repeat split.
Qed.

Lemma parse_props_no_match s :
  Re.search HOSTNAME_PATTERN s = None -> parse_props s = Py.Ok no_props.
Proof. intros Hm. unfold parse_props. rewrite Hm. reflexivity. Qed.

(** *** Lookup tables *)

Lemma get_or_is_Some tbl key : is_Some (Py.get_or tbl key) <-> is_Some key.
Proof.
  destruct key as [k|]; cbn; [|reflexivity].
  destruct (tbl !! k) as [v|]; [destruct (Py.truthy v)|]; split; eauto.
Qed.

Lemma get_or_miss tbl k : tbl !! k = None -> Py.get_or tbl (Some k) = Some k.
Proof. intros H. cbn. rewrite H. reflexivity. Qed.

Lemma encode_miss tbl label :
  (forall k v, tbl !! k = Some v -> v <> label) -> encode tbl label = label.
Proof.
  intros Hne. unfold encode.
  destruct (filter _ _) as [|[k v] l] eqn:E; [reflexivity|].
  assert (Hin : (k, v) ∈ filter (fun kv : string * string => kv.2 = label)
                  (map_to_list tbl)) by (rewrite E; left).
  apply list_elem_of_filter in Hin as [Hv Hin].
  apply elem_of_map_to_list in Hin. destruct (Hne _ _ Hin Hv).
Qed.

Ltac table_cases H :=
  unfold HOSTNAME_ROLE_MAP, HOSTNAME_SUBROLE_MAP, HOSTNAME_STATUS_MAP in H;
  apply elem_of_list_to_map_2 in H;
  repeat (apply elem_of_cons in H as [H|H]; [simplify_eq|]);
  [..|apply elem_of_nil in H; contradiction].

Lemma encode_role_code c :
  String.length c = 1%nat ->
  encode HOSTNAME_ROLE_MAP <$> Py.get_or HOSTNAME_ROLE_MAP (Some c) = Some c.
Proof.
  intros Hlen. cbn [Py.get_or].
  destruct (HOSTNAME_ROLE_MAP !! c) as [v|] eqn:E.
  - table_cases E; vm_compute; reflexivity.
  - cbn [fmap option_fmap option_map]. f_equal. apply encode_miss. intros k v Hkv ->.
    table_cases Hkv; discriminate Hlen.
Qed.

Lemma encode_subrole_code c :
  String.length c = 2%nat ->
  encode HOSTNAME_SUBROLE_MAP <$> Py.get_or HOSTNAME_SUBROLE_MAP (Some c)
  = Some c.
Proof.
  intros Hlen. cbn [Py.get_or].
  destruct (HOSTNAME_SUBROLE_MAP !! c) as [v|] eqn:E.
  - table_cases E; vm_compute; reflexivity.
  - cbn [fmap option_fmap option_map]. f_equal. apply encode_miss. intros k v Hkv ->.
    table_cases Hkv; discriminate Hlen.
Qed.

Lemma status_of_cases s :
  status_of s = None \/ status_of s = Some "ACT"
  \/ status_of s = Some "STB" \/ status_of s = Some "OLD".
Proof. unfold status_of. repeat case_match; tauto. Qed.

Lemma encode_status_code s :
  encode HOSTNAME_STATUS_MAP <$> Py.get_or HOSTNAME_STATUS_MAP (status_of s)
  = status_of s.
Proof.
  destruct (status_of_cases s) as [-> | [-> | [-> | ->]]];
    vm_compute; reflexivity.
Qed.

Lemma parse_hostname_match dev m :
  Re.search HOSTNAME_PATTERN (dev_name dev) = Some m ->
  exists fl ix,
    Py.int (Re.group m "floor") = Py.Ok fl
    /\ Py.int (Re.group m "index") = Py.Ok ix
    /\ parse_hostname dev
       = Py.Ok {| record := dev;
                  parsed_props :=
                    {| role := Py.get_or HOSTNAME_ROLE_MAP (Re.group m "role");
                       site := Re.group m "site";
                       floor := Some fl;
                       subrole := Py.get_or HOSTNAME_SUBROLE_MAP (Re.group m "subrole");
                       index := Some ix;
                       status := Py.get_or HOSTNAME_STATUS_MAP (Re.group m "status") |} |}.
Proof.
  intros Hm. destruct (parse_props_match _ _ Hm) as (fl & ix & Hfl & Hix & Hp).
  exists fl, ix. unfold parse_hostname. rewrite Hp. auto.
Qed.

Lemma parse_hostname_no_match dev :
  Re.search HOSTNAME_PATTERN (dev_name dev) = None ->
  parse_hostname dev = Py.Ok {| record := dev; parsed_props := no_props |}.
Proof.
  intros Hm. unfold parse_hostname. rewrite parse_props_no_match by exact Hm.
  reflexivity.
Qed.

Lemma group_length s m name code :
  matched s m -> Re.group m name = Some code -> (String.length code <= 3)%nat.
Proof.
  intros [] Hg. unfold status_capture in Hg.
  destruct (status_of_cases (strip_dash rest)) as [E | [E | [E | E]]];
    rewrite E in Hg; cbn [app Re.group] in Hg;
    repeat match type of Hg with
           | (if ?b then _ else _) = _ => destruct b
           end; simplify_eq; cbn; lia.
Qed.

End Parser.

(** ** Tag derivation *)

Section Tags.

Implicit Types (p : props) (t model : string).

Lemma parsed_tags_elem p t :
  t ∈ parsed_tags p
  <-> t ∈ NETBOX_TAGS
      /\ (role p = Some t \/ site p = Some t
          \/ subrole p = Some t \/ status p = Some t).
Proof.
  unfold parsed_tags. rewrite list_elem_of_omap. split.
  - intros (v & Hv & Ht). unfold props_values in Hv.
    destruct v as [|s|z]; cbn in Ht; try discriminate Ht.
    destruct (decide (s ∈ NETBOX_TAGS)) as [Hs|]; [|discriminate Ht].
    injection Ht as ->. split; [exact Hs|].
    repeat (apply elem_of_cons in Hv as [Hv|Hv]);
      [..|apply elem_of_nil in Hv; contradiction].
    + destruct (role p); cbn in Hv; simplify_eq; tauto.
    + destruct (site p); cbn in Hv; simplify_eq; tauto.
    + destruct (floor p); cbn in Hv; simplify_eq.
    + destruct (subrole p); cbn in Hv; simplify_eq; tauto.
    + destruct (index p); cbn in Hv; simplify_eq.
    + destruct (status p); cbn in Hv; simplify_eq; tauto.
  - intros (Ht & Hsrc). exists (Py.VStr t). split.
    + unfold props_values.
      destruct Hsrc as [-> | [-> | [-> | ->]]]; cbn [from_option];
        repeat first [left | right].
    + cbn. rewrite decide_True by exact Ht. reflexivity.
Qed.

Lemma netbox_tag_length t : t ∈ NETBOX_TAGS -> (6 <= String.length t)%nat.
Proof.
  unfold NETBOX_TAGS. intros Ht.
  repeat (apply elem_of_cons in Ht as [->|Ht]; [cbn; lia|]).
  apply elem_of_nil in Ht. contradiction.
Qed.

Lemma ranked_tags_elem p t :
  t ∈ ranked_tags p
  <-> t ∈ parsed_tags p
      \/ (("distribution-switch" ∈ parsed_tags p
           \/ "core-router" ∈ parsed_tags p)
          /\ ((t = "primary" /\ index p = Some 1%Z)
              \/ (t = "secondary" /\ index p = Some 2%Z))).
Proof.
  unfold ranked_tags.
  destruct (decide (_ \/ _)) as [Htr|Htr];
    [destruct (decide (index p = Some 1%Z)) as [H1|H1];
     destruct (decide (index p = Some 2%Z)) as [H2|H2]|];
    rewrite ?elem_of_app, ?list_elem_of_singleton; try congruence; tauto.
Qed.

Lemma ranked_tags_core p :
  "core-router" ∈ ranked_tags p <-> "core-router" ∈ parsed_tags p.
Proof.
  rewrite ranked_tags_elem. split; [|tauto].
  intros [H | (_ & [[? _] | [? _]])]; [exact H|discriminate..].
Qed.

Lemma stacked_tags_elem model p t :
  t ∈ stacked_tags model p
  <-> t ∈ ranked_tags p
      \/ (t = "access-switch" /\ "core-router" ∈ parsed_tags p
          /\ (Py.contains "3850" model = true
              \/ Py.contains "3750" model = true)).
Proof.
  unfold stacked_tags. rewrite <- ranked_tags_core.
  destruct (decide ("core-router" ∈ ranked_tags p)) as [Hc|Hc].
  - destruct (Py.contains "3850" model || Py.contains "3750" model) eqn:Hm.
    + apply orb_true_iff in Hm.
      rewrite elem_of_app, list_elem_of_singleton. tauto.
    + apply orb_false_iff in Hm as [H1 H2]. rewrite H1, H2.
      split; [tauto|]. intros [H | (_ & _ & [? | ?])]; [exact H|discriminate..].
  - tauto.
Qed.

Lemma get_device_tags_elem (dev : device) t :
  t ∈ get_device_tags dev
  <-> t ∈ stacked_tags (dev_model (record dev)) (parsed_props dev).
Proof.
  unfold get_device_tags. rewrite elem_of_elements, elem_of_list_to_set.
  reflexivity.
Qed.

End Tags.

(** ** STP root scan *)

Section StpRoot.

Implicit Types (devices : list device) (result : stp_root).

(** The scan keeps, for each slot, the last device of the right index. *)
Lemma stp_scan_fold devices result :
  primary (foldl stp_scan result devices)
  = from_option Some (primary result)
      (last (filter (fun x => index (parsed_props x) = Some 1%Z) devices))
  /\ secondary (foldl stp_scan result devices)
     = from_option Some (secondary result)
         (last (filter (fun x => index (parsed_props x) = Some 2%Z) devices)).
Proof.
  revert result. induction devices as [|d devices IH] using rev_ind;
    intros result.
  - split; reflexivity.
  - rewrite foldl_snoc, !filter_app, !filter_cons, !filter_nil.
    destruct (IH result) as [IHp IHs]. unfold stp_scan.
    destruct (decide (index (parsed_props d) = Some 1%Z)) as [H1|H1];
      destruct (decide (index (parsed_props d) = Some 2%Z)) as [H2|H2];
      try congruence; cbn [primary secondary];
      rewrite ?last_snoc, ?app_nil_r; cbn [from_option]; auto.
Qed.

End StpRoot.

(** ** Tag update *)

Section Update.

Implicit Types (dev : device) (t : string).

Lemma submitted_tags_filter dev :
  submitted_tags dev
  = filter (fun tag => tag ∉ dev_tags (record dev)) (get_device_tags dev).
Proof.
  unfold submitted_tags, update_device_tags.
  destruct (get_device_tags dev) as [|t l]; [reflexivity|].
  cbn [flat_map]. apply app_nil_r.
Qed.

Lemma tags_after_update_app dev :
  tags_after_update dev
  = (dev_tags (record dev) ++ submitted_tags dev)%list.
Proof.
  rewrite submitted_tags_filter. unfold tags_after_update, update_device_tags.
  destruct (get_device_tags dev) as [|t l]; cbn [foldl apply_request].
  - rewrite filter_nil, app_nil_r. reflexivity.
  - reflexivity.
Qed.

End Update.

(** * Properties of the specification *)

(** C1. Additive tag reconciliation: the tags [update_device_tags] submits
    are exactly the derived tags that the device does not carry yet, sent in
    one request when the derivation is not empty and not at all otherwise;
    with the submitted tags added to the device, every tag the device had is
    still there, also one the derivation does not produce, and the device
    ends with its old tags and the derived ones. *)
Theorem additive_tag_reconciliation (dev : device) :
  let current := dev_tags (record dev) in
  let derived := get_device_tags dev in
  (forall t, t ∈ submitted_tags dev <-> t ∈ derived /\ t ∉ current)
  /\ (derived = [] -> update_device_tags dev = [])
  /\ (derived <> [] ->
      update_device_tags dev
      = [UpdateDevice (dev_name (record dev)) (submitted_tags dev)])
  /\ (forall t, t ∈ current -> t ∈ tags_after_update dev)
  /\ (forall t, t ∈ tags_after_update dev <-> t ∈ current \/ t ∈ derived).
Proof.
  intros current derived.
  assert (Hsub : forall t, t ∈ submitted_tags dev <-> t ∈ derived /\ t ∉ current).
  { intros t. rewrite submitted_tags_filter, list_elem_of_filter. tauto. }
  split; [exact Hsub|]. split; [|split; [|split]].
  - intros He. unfold update_device_tags. fold derived. rewrite He. reflexivity.
  - intros Hne. rewrite submitted_tags_filter.
    unfold update_device_tags. fold derived.
    destruct derived; [congruence|reflexivity].
  - intros t Ht. rewrite tags_after_update_app, elem_of_app. left. exact Ht.
  - intros t. rewrite tags_after_update_app, elem_of_app, Hsub.
    destruct (decide (t ∈ current)); tauto.
Qed.

Lemma additive_tag_reconciliation_witness :
  ("legacy-tag" ∉ get_device_tags core1)
  /\ "legacy-tag" ∈ tags_after_update core1
  /\ update_device_tags core1
     = [UpdateDevice "RFUL01CR01" (submitted_tags core1)]
  /\ update_device_tags unparsed_device = [].
Proof.
  destruct (additive_tag_reconciliation core1) as (_ & _ & Hreq & Hkeep & _).
  destruct (additive_tag_reconciliation unparsed_device) as (_ & Hnone & _).
  split; [|split; [|split]].
  - vm_compute. intros H.
    repeat (apply elem_of_cons in H as [H|H]; [discriminate H|]).
    apply elem_of_nil in H. exact H.
  - apply Hkeep. left.
  - apply Hreq. vm_compute. discriminate.
  - apply Hnone. vm_compute. reflexivity.
Defined.

(** C2. Allow-list filtering in the first loop of [get_device_tags]: for the
    record [parse_hostname] attaches to a device, every tag collected by the
    first loop is in [NETBOX_TAGS] and is the long-form label that a lookup
    table gives for the role, subrole or status code of the hostname; no text
    captured from the hostname, so no raw code, is ever among them. *)
Theorem parsed_tags_allow_listed_labels (dev : nb_device) :
  exists p,
    parse_hostname dev = Py.Ok {| record := dev; parsed_props := p |}
    /\ (forall t, t ∈ parsed_tags p ->
          t ∈ NETBOX_TAGS
          /\ exists m code,
              Re.search HOSTNAME_PATTERN (dev_name dev) = Some m
              /\ ((Re.group m "role" = Some code
                   /\ HOSTNAME_ROLE_MAP !! code = Some t)
                  \/ (Re.group m "subrole" = Some code
                      /\ HOSTNAME_SUBROLE_MAP !! code = Some t)
                  \/ (Re.group m "status" = Some code
                      /\ HOSTNAME_STATUS_MAP !! code = Some t)))
    /\ (forall m name code,
          Re.search HOSTNAME_PATTERN (dev_name dev) = Some m ->
          Re.group m name = Some code ->
          code ∉ parsed_tags p).
Proof.
  destruct (Re.search HOSTNAME_PATTERN (dev_name dev)) as [m|] eqn:Hm.
  - destruct (parse_hostname_match _ _ Hm) as (fl & ix & _ & _ & Hp).
    eexists. split; [exact Hp|]. split.
    + intros t [Ht Hsrc]%parsed_tags_elem. split; [exact Ht|].
      apply netbox_tag_length in Ht.
      exists m. cbn [role site subrole status] in Hsrc.
      pose proof (search_hostname_inv _ _ Hm) as Hmatch.
      assert (Hraw : forall tbl name,
                 Py.get_or tbl (Re.group m name) = Some t ->
                 exists code, Re.group m name = Some code /\ tbl !! code = Some t).
      { intros tbl name Hget.
        destruct (Re.group m name) as [code|] eqn:Hg; [|discriminate Hget].
        exists code. split; [reflexivity|].
        pose proof (group_length _ _ _ _ Hmatch Hg) as Hlen.
        cbn in Hget. destruct (tbl !! code) as [v|].
        - destruct (Py.truthy v); simplify_eq; [reflexivity|lia].
        - simplify_eq. lia. }
      destruct Hsrc as [Hr | [Hs | [Hsub | Hst]]].
      * destruct (Hraw _ _ Hr) as (code & ? & ?). exists code. tauto.
      * pose proof (group_length _ _ _ _ Hmatch Hs). lia.
      * destruct (Hraw _ _ Hsub) as (code & ? & ?). exists code. tauto.
      * destruct (Hraw _ _ Hst) as (code & ? & ?). exists code. tauto.
    + intros m' name code [= <-] Hg [Ht _]%parsed_tags_elem.
      apply netbox_tag_length in Ht.
      pose proof (group_length _ _ _ _ (search_hostname_inv _ _ Hm) Hg). lia.
  - eexists. split; [apply parse_hostname_no_match, Hm|]. split.
    + intros t [_ Hsrc]%parsed_tags_elem. cbn in Hsrc.
      destruct Hsrc as [? | [? | [? | ?]]]; discriminate.
    + intros m' name code [=].
Qed.

Lemma parsed_tags_allow_listed_labels_witness :
  exists p,
    parse_hostname access_device
    = Py.Ok {| record := access_device; parsed_props := p |}
    /\ "access-switch" ∈ NETBOX_TAGS
    /\ "AC" ∉ parsed_tags p.
Proof.
  destruct (parsed_tags_allow_listed_labels access_device)
    as (p & Hp & Hin & Hout).
  exists p. split; [exact Hp|]. split.
  - apply (Hin "access-switch").
    vm_compute in Hp. injection Hp as <-.
    vm_compute. left.
  - apply (Hout [("status", "ACT"); ("index", "02"); ("subrole", "AC");
                 ("floor", "01"); ("site", "FUL"); ("role", "R")] "subrole");
      vm_compute; reflexivity.
Defined.

(** C3. Root-bridge selection: [get_stp_root] scans the devices whose
    parsed subrole is "distribution-switch" when there is one, and the
    devices whose parsed subrole is "core-router" only otherwise; primary is
    the last scanned device of index 1 and secondary the last of index 2; a
    slot with no such device in the scanned group is [None], and both are
    [None] for the empty list. *)
Theorem get_stp_root_selection (devices : list device) :
  let distribution_switches :=
    filter (fun x => subrole (parsed_props x) = Some "distribution-switch")
      devices in
  let core_routers :=
    filter (fun x => subrole (parsed_props x) = Some "core-router") devices in
  let chosen :=
    match distribution_switches with
    | [] => core_routers
    | _ :: _ => distribution_switches
    end in
  primary (get_stp_root devices)
  = last (filter (fun x => index (parsed_props x) = Some 1%Z) chosen)
  /\ secondary (get_stp_root devices)
     = last (filter (fun x => index (parsed_props x) = Some 2%Z) chosen)
  /\ ((forall x, x ∈ chosen -> index (parsed_props x) <> Some 1%Z) ->
      primary (get_stp_root devices) = None)
  /\ ((forall x, x ∈ chosen -> index (parsed_props x) <> Some 2%Z) ->
      secondary (get_stp_root devices) = None)
  /\ get_stp_root [] = {| primary := None; secondary := None |}.
Proof.
  intros ds cr chosen.
  assert (Hroot : get_stp_root devices
                  = foldl stp_scan {| primary := None; secondary := None |} chosen).
  { unfold get_stp_root, get_devices_with_subrole. fold ds. fold cr.
    subst chosen. destruct ds; reflexivity. }
  destruct (stp_scan_fold chosen {| primary := None; secondary := None |})
    as [Hp Hs].
  rewrite Hroot, Hp, Hs. cbn [primary secondary].
  assert (Hlast : forall o : option device, from_option Some None o = o)
    by (intros []; reflexivity).
  rewrite !Hlast.
  assert (Hnone : forall P `{!forall x : device, Decision (P x)},
             (forall x, x ∈ chosen -> ~ P x) -> last (filter P chosen) = None).
  { intros P HP Hno. apply last_None.
    destruct (filter P chosen) as [|x l] eqn:E; [reflexivity|].
    assert (Hx : x ∈ filter P chosen) by (rewrite E; left).
    apply list_elem_of_filter in Hx as [HPx Hx]. destruct (Hno x Hx HPx). }
  repeat split; auto.
Qed.

Lemma get_stp_root_selection_witness :
  primary (get_stp_root [dist1; core2; dist1b; dist3]) = Some dist1b
  /\ secondary (get_stp_root [dist1; core2; dist1b; dist3]) = None
  /\ primary (get_stp_root [core2]) = None
  /\ secondary (get_stp_root [core2]) = Some core2.
Proof.
  pose proof (get_stp_root_selection [dist1; core2; dist1b; dist3])
    as (Hp & _ & _ & Hs & _).
  pose proof (get_stp_root_selection [core2]) as (_ & Hs' & Hp' & _).
  split; [|split; [|split]].
  - rewrite Hp. vm_compute. reflexivity.
  - apply Hs. intros x Hx. vm_compute in Hx.
    repeat (apply elem_of_cons in Hx as [->|Hx]; [discriminate|]).
    apply elem_of_nil in Hx. contradiction.
  - apply Hp'. intros x Hx. vm_compute in Hx.
    repeat (apply elem_of_cons in Hx as [->|Hx]; [discriminate|]).
    apply elem_of_nil in Hx. contradiction.
  - rewrite Hs'. vm_compute. reflexivity.
Defined.

(** C4. All-or-nothing parse: either the pattern matches the device name and
    role, site, floor, subrole and index are all set, status being set
    exactly when the status group took part in the match, or the pattern
    does not match and the record is the all-[None] one. *)
Theorem parse_all_or_nothing (dev : nb_device) :
  (exists m p,
      Re.search HOSTNAME_PATTERN (dev_name dev) = Some m
      /\ parse_hostname dev = Py.Ok {| record := dev; parsed_props := p |}
      /\ is_Some (role p) /\ is_Some (site p) /\ is_Some (floor p)
      /\ is_Some (subrole p) /\ is_Some (index p)
      /\ (is_Some (status p) <-> is_Some (Re.group m "status")))
  \/ (Re.search HOSTNAME_PATTERN (dev_name dev) = None
      /\ parse_hostname dev
         = Py.Ok {| record := dev; parsed_props := no_props |}).
Proof.
  destruct (Re.search HOSTNAME_PATTERN (dev_name dev)) as [m|] eqn:Hm.
  - left. destruct (parse_hostname_match _ _ Hm) as (fl & ix & _ & _ & Hp).
    apply search_hostname_inv, matched_groups in Hm
      as (r & st & f1 & f2 & sub & i1 & i2 & rest & _ & _ & _
          & _ & _ & _ & _ & Hr & Hs & _ & Hsub & _ & _).
    eexists m, _. split; [reflexivity|]. split; [exact Hp|]. cbn [role site floor subrole index status].
    rewrite !get_or_is_Some, Hr, Hs, Hsub. repeat split; eauto.
  - right. split; [reflexivity|]. apply parse_hostname_no_match, Hm.
Qed.

(** C5. Code round trip: for a name the pattern matches, turning the parsed
    role, subrole and status back into codes through the inverted tables
    gives the role, subrole and status groups of the match, the role group
    being the first character of the name and the subrole group the two
    characters at offset 6; the text after the status code plays no part. *)
Theorem code_round_trip (dev : nb_device) (m : Re.captures) :
  Re.search HOSTNAME_PATTERN (dev_name dev) = Some m ->
  exists p,
    parse_hostname dev = Py.Ok {| record := dev; parsed_props := p |}
    /\ encode_role p = Re.group m "role"
    /\ encode_subrole p = Re.group m "subrole"
    /\ encode_status p = Re.group m "status"
    /\ Re.group m "role" = Some (String.substring 0 1 (dev_name dev))
    /\ Re.group m "subrole" = Some (String.substring 6 2 (dev_name dev)).
Proof.
  intros Hm. destruct (parse_hostname_match _ _ Hm) as (fl & ix & _ & _ & Hp).
  eexists. split; [exact Hp|].
  unfold encode_role, encode_subrole, encode_status.
  cbn [role subrole status].
  apply search_hostname_inv in Hm. destruct Hm.
  unfold status_capture. 
  pose proof (encode_status_code (strip_dash rest)) as Hst.
  destruct (status_of (strip_dash rest)) as [c|] eqn:Hc.
  - cbn [app Re.group String.eqb Ascii.eqb Bool.eqb].
    repeat split; try reflexivity.
    + apply encode_role_code. reflexivity.
    + apply encode_subrole_code. reflexivity.
    + exact Hst.
  - cbn [app Re.group String.eqb Ascii.eqb Bool.eqb].
    repeat split; try reflexivity.
    + apply encode_role_code. reflexivity.
    + apply encode_subrole_code. reflexivity.
Qed.

Lemma code_round_trip_witness :
  exists p,
    parse_hostname access_device
    = Py.Ok {| record := access_device; parsed_props := p |}
    /\ encode_role p = Some "R"
    /\ encode_subrole p = Some "AC"
    /\ encode_status p = Some "ACT".
Proof.
  destruct (code_round_trip access_device
              [("status", "ACT"); ("index", "02"); ("subrole", "AC");
               ("floor", "01"); ("site", "FUL"); ("role", "R")])
    as (p & Hp & Hr & Hs & Ht & _).
  - vm_compute. reflexivity.
  - exists p. repeat split; assumption.
Defined.

(** C6. Parse totality: [parse_hostname] returns for every device name; a
    name shorter than ten characters, "shortname" among them, gives the
    all-[None] record; and when the pattern matches, [int] succeeds on the
    floor and index groups, so the [ValueError] branch is never taken. *)
Theorem parse_never_raises :
  (forall dev, exists d, parse_hostname dev = Py.Ok d)
  /\ (forall dev, (String.length (dev_name dev) < 10)%nat ->
        parse_hostname dev = Py.Ok {| record := dev; parsed_props := no_props |})
  /\ (forall dev, dev_name dev = "shortname" ->
        parse_hostname dev = Py.Ok {| record := dev; parsed_props := no_props |})
  /\ (forall dev m, Re.search HOSTNAME_PATTERN (dev_name dev) = Some m ->
        exists fl ix, Py.int (Re.group m "floor") = Py.Ok fl
                      /\ Py.int (Re.group m "index") = Py.Ok ix).
Proof.
  repeat split.
  - intros dev. destruct (Re.search HOSTNAME_PATTERN (dev_name dev)) as [m|] eqn:Hm.
    + destruct (parse_hostname_match _ _ Hm) as (fl & ix & _ & _ & Hp). eauto.
    + rewrite parse_hostname_no_match by exact Hm. eauto.
  - intros dev Hlen. apply parse_hostname_no_match, search_short, Hlen.
  - intros dev Hname. apply parse_hostname_no_match, search_short.
    rewrite Hname. cbn. lia.
  - intros dev m Hm.
    destruct (parse_hostname_match _ _ Hm) as (fl & ix & Hfl & Hix & _). eauto.
Qed.

Lemma parse_never_raises_witness :
  (String.length (dev_name bare_device) < 10)%nat
  /\ parse_hostname bare_device
     = Py.Ok {| record := bare_device; parsed_props := no_props |}
  /\ exists fl ix,
      Py.int (Some "01") = Py.Ok fl /\ Py.int (Some "02") = Py.Ok ix.
Proof.
  destruct parse_never_raises as (_ & Hshort & Hname & Hint).
  assert (Hlen : (String.length (dev_name bare_device) < 10)%nat)
    by (cbn; lia).
  split; [exact Hlen|]. split.
  - rewrite <- (Hname bare_device eq_refl). apply Hshort, Hlen.
  - apply (Hint access_device
             [("status", "ACT"); ("index", "02"); ("subrole", "AC");
              ("floor", "01"); ("site", "FUL"); ("role", "R")]).
    vm_compute. reflexivity.
Defined.

(** C7. The name "RFUL01AC02-ACT-extra" matches the pattern and parses to
    role "router", site "FUL", floor 1, subrole "access-switch", index 2 and
    status "active". *)
Theorem parse_example (id : Z) (tags : list string) (pf : option platform)
    (model : string) :
  let dev := {| dev_id := id; dev_name := "RFUL01AC02-ACT-extra";
                dev_tags := tags; dev_platform := pf; dev_model := model |} in
  is_Some (Re.search HOSTNAME_PATTERN (dev_name dev))
  /\ parse_hostname dev
     = Py.Ok {| record := dev;
                parsed_props :=
                  {| role := Some "router"; site := Some "FUL";
                     floor := Some 1%Z; subrole := Some "access-switch";
                     index := Some 2%Z; status := Some "active" |} |}.
Proof.
  intros dev. split.
  - vm_compute. eauto.
  - unfold parse_hostname. 
    change (dev_name dev) with "RFUL01AC02-ACT-extra".
    replace (parse_props "RFUL01AC02-ACT-extra")
      with (Py.Ok {| role := Some "router"; site := Some "FUL";
                     floor := Some 1%Z; subrole := Some "access-switch";
                     index := Some 2%Z; status := Some "active" |})
      by (vm_compute; reflexivity).
    reflexivity.
Qed.

(** C8. Second and third block of [get_device_tags]: for a device whose
    first-loop tags hold "distribution-switch" or "core-router", "primary"
    is added when the parsed index is 1 and "secondary" when it is 2,
    "access-switch" is added when "core-router" is among the tags and the
    model contains "3850" or "3750", and nothing else is added; a core
    router of index 1 whose model contains "3850" gets "core-router",
    "primary" and "access-switch". *)
Theorem rank_and_stack_tags (dev : device) :
  let p := parsed_props dev in
  let model := dev_model (record dev) in
  let stack :=
    Py.contains "3850" model = true \/ Py.contains "3750" model = true in
  ("distribution-switch" ∈ parsed_tags p \/ "core-router" ∈ parsed_tags p ->
   (index p = Some 1%Z -> "primary" ∈ get_device_tags dev)
   /\ (index p = Some 2%Z -> "secondary" ∈ get_device_tags dev)
   /\ ("core-router" ∈ parsed_tags p -> stack ->
       "access-switch" ∈ get_device_tags dev)
   /\ (forall t,
         t ∈ get_device_tags dev
         <-> t ∈ parsed_tags p
             \/ (t = "primary" /\ index p = Some 1%Z)
             \/ (t = "secondary" /\ index p = Some 2%Z)
             \/ (t = "access-switch" /\ "core-router" ∈ parsed_tags p
                 /\ stack)))
  /\ (subrole p = Some "core-router" -> index p = Some 1%Z ->
      Py.contains "3850" model = true ->
      "core-router" ∈ get_device_tags dev
      /\ "primary" ∈ get_device_tags dev
      /\ "access-switch" ∈ get_device_tags dev).
Proof.
  intros p model stack. subst stack. split.
  - intros Htr.
    assert (Hall : forall t,
               t ∈ get_device_tags dev
               <-> t ∈ parsed_tags p
                   \/ (t = "primary" /\ index p = Some 1%Z)
                   \/ (t = "secondary" /\ index p = Some 2%Z)
                   \/ (t = "access-switch" /\ "core-router" ∈ parsed_tags p
                       /\ (Py.contains "3850" model = true
                           \/ Py.contains "3750" model = true))).
    { intros t. rewrite get_device_tags_elem, stacked_tags_elem,
        ranked_tags_elem. fold p. fold model. tauto. }
    repeat split; try (intros; apply Hall; tauto); apply Hall.
  - intros Hsub H1 Hm.
    assert (Hcore : "core-router" ∈ parsed_tags p).
    { apply parsed_tags_elem. split; [|tauto].
      unfold NETBOX_TAGS. repeat first [left | right]. }
    rewrite !get_device_tags_elem, !stacked_tags_elem, !ranked_tags_elem.
    fold p. fold model. tauto.
Qed.

Lemma rank_and_stack_tags_witness :
  "core-router" ∈ get_device_tags core1
  /\ "primary" ∈ get_device_tags core1
  /\ "access-switch" ∈ get_device_tags core1
  /\ "secondary" ∈ get_device_tags core2.
Proof.
  destruct (rank_and_stack_tags core1) as [_ Hex].
  destruct (rank_and_stack_tags core2) as [Hrank _].
  destruct Hex as (Hc & Hp & Ha); try reflexivity.
  destruct Hrank as (_ & Hsec & _); [right; vm_compute; left|].
  repeat split; try assumption.
  apply Hsec. reflexivity.
Defined.

(** C9. Graceful lookup degradation: for a name the pattern matches, parsing
    succeeds, each of role, subrole and status is [table.get(code) or code]
    on the group of that name, and a code that its table does not hold is
    kept as it is in the parsed field. *)
Theorem unknown_code_kept (dev : nb_device) (m : Re.captures) :
  Re.search HOSTNAME_PATTERN (dev_name dev) = Some m ->
  exists p,
    parse_hostname dev = Py.Ok {| record := dev; parsed_props := p |}
    /\ role p = Py.get_or HOSTNAME_ROLE_MAP (Re.group m "role")
    /\ subrole p = Py.get_or HOSTNAME_SUBROLE_MAP (Re.group m "subrole")
    /\ status p = Py.get_or HOSTNAME_STATUS_MAP (Re.group m "status")
    /\ (forall c, Re.group m "role" = Some c ->
                  HOSTNAME_ROLE_MAP !! c = None -> role p = Some c)
    /\ (forall c, Re.group m "subrole" = Some c ->
                  HOSTNAME_SUBROLE_MAP !! c = None -> subrole p = Some c)
    /\ (forall c, Re.group m "status" = Some c ->
                  HOSTNAME_STATUS_MAP !! c = None -> status p = Some c)
    /\ (forall table c, table !! c = None ->
                        Py.get_or table (Some c) = Some c).
Proof.
  intros Hm. destruct (parse_hostname_match _ _ Hm) as (fl & ix & _ & _ & Hp).
  eexists. split; [exact Hp|]. cbn [role subrole status].
  do 3 (split; [reflexivity|]).
  repeat split; try (intros c -> Hc; apply get_or_miss, Hc).
  apply get_or_miss.
Qed.

Lemma unknown_code_kept_witness :
  exists p,
    parse_hostname unknown_device
    = Py.Ok {| record := unknown_device; parsed_props := p |}
    /\ role p = Some "X" /\ subrole p = Some "ZZ"
    /\ Py.get_or HOSTNAME_STATUS_MAP (Some "NEW") = Some "NEW".
Proof.
  destruct (unknown_code_kept unknown_device
              [("index", "02"); ("subrole", "ZZ"); ("floor", "01");
               ("site", "FUL"); ("role", "X")])
    as (p & Hp & _ & _ & _ & Hrole & Hsub & _ & Hget).
  - vm_compute. reflexivity.
  - exists p. split; [exact Hp|]. split; [|split].
    + apply Hrole; vm_compute; reflexivity.
    + apply Hsub; vm_compute; reflexivity.
    + apply Hget. vm_compute. reflexivity.
Defined.

(** C10. A device without platform and with an empty tag list makes
    [verify_platform] raise [IndexError] on [device["tags"][0]]; it is not
    treated as a device with nothing to do. *)
Theorem verify_platform_empty_tags (platforms : option (list platform))
    (dev : nb_device) :
  dev_platform dev = None -> dev_tags dev = [] ->
  verify_platform platforms dev = Py.Raise Py.IndexError
  /\ verify_platform platforms dev <> Py.Ok [].
Proof.
  intros Hp Ht. unfold verify_platform. rewrite Hp, Ht. cbn.
  split; [reflexivity|discriminate].
Qed.

Lemma verify_platform_empty_tags_witness :
  verify_platform (Some []) bare_device = Py.Raise Py.IndexError.
Proof.
  apply (verify_platform_empty_tags (Some []) bare_device); reflexivity.
Defined.

(** * Further properties of the script *)

(** ** Strings *)

Section Strings.

Implicit Types (s t : string) (sep c : ascii).

Lemma append_cons c s t : String c s ++ t = String c (s ++ t).
Proof. reflexivity. Qed.

Lemma append_empty t : EmptyString ++ t = t.
Proof. reflexivity. Qed.

Lemma split_cons sep s : exists piece pieces, split sep s = piece :: pieces.
Proof.
  induction s as [|c s (p & ps & IH)]; cbn; [eauto|].
  destruct (Ascii.eqb c sep); [eauto|]. rewrite IH. eauto.
Qed.

Lemma join_split sep s : join (String sep EmptyString) (split sep s) = s.
Proof.
  induction s as [|c s IH]; [reflexivity|]. cbn [split].
  destruct (Ascii.eqb_spec c sep) as [->|Hc].
  - destruct (split_cons sep s) as (p & ps & E). rewrite E in *.
    cbn [join]. cbn. rewrite <- IH. reflexivity.
  - destruct (split_cons sep s) as (p & ps & E). rewrite E in *.
    destruct ps as [|q qs]; cbn [join] in *; cbn; rewrite <- IH; reflexivity.
Qed.

Lemma split_pieces sep s :
  Forall (fun piece => has_char sep piece = false) (split sep s)
  /\ length (split sep s) = S (count_char sep s).
Proof.
  induction s as [|c s [IHf IHl]]; [split; [repeat constructor|reflexivity]|].
  cbn [split count_char].
  destruct (Ascii.eqb c sep) eqn:Hc.
  - split; [constructor; [reflexivity|exact IHf]|]. cbn. rewrite IHl. reflexivity.
  - destruct (split_cons sep s) as (p & ps & E). rewrite E in *.
    inversion IHf; subst. split.
    + constructor; [cbn; rewrite Hc; assumption|assumption].
    + cbn in *. exact IHl.
Qed.

Lemma split_join sep pieces :
  pieces <> [] ->
  Forall (fun piece => has_char sep piece = false) pieces ->
  split sep (join (String sep EmptyString) pieces) = pieces.
Proof.
  intros Hne Hall. induction Hall as [|p ps Hp Hall IH]; [congruence|].
  clear Hne. destruct ps as [|q qs].
  - cbn [join]. clear IH Hall. induction p as [|c p IHp]; [reflexivity|].
    cbn in Hp. apply orb_false_iff in Hp as [Hc Hp].
    cbn [split]. rewrite Hc, (IHp Hp). reflexivity.
  - specialize (IH ltac:(discriminate)).
    change (join (String sep EmptyString) (p :: q :: qs))
      with (p ++ String sep (join (String sep EmptyString) (q :: qs))).
    induction p as [|c p IHp].
    + rewrite append_empty. cbn [split].
      rewrite Ascii.eqb_refl, IH. reflexivity.
    + cbn in Hp. apply orb_false_iff in Hp as [Hc Hp].
      rewrite append_cons. cbn [split]. rewrite Hc, (IHp Hp). reflexivity.
Qed.

End Strings.

(** ** Platforms *)

Section Platform.

Implicit Types (ps : list platform) (slug : string) (dev : nb_device).

Lemma head_filter_Some {A} (P : A -> Prop) `{!forall x, Decision (P x)}
    (l : list A) (x : A) :
  head (filter P l) = Some x
  <-> exists before after,
        l = (before ++ x :: after)%list /\ P x /\ Forall (fun y => ~ P y) before.
Proof.
  induction l as [|y l IH].
  - split; [discriminate|]. intros (b & a & E & _). destruct b; discriminate.
  - rewrite filter_cons. destruct (decide (P y)) as [Hy|Hy].
    + cbn [head]. split.
      * intros [= <-]. exists [], l. auto.
      * intros (b & a & E & Hx & Hb). destruct b as [|z b].
        -- injection E as -> _. reflexivity.
        -- injection E as -> _. inversion Hb; contradiction.
    + rewrite IH. split.
      * intros (b & a & -> & Hx & Hb). exists (y :: b), a. auto.
      * intros (b & a & E & Hx & Hb). destruct b as [|z b].
        -- injection E as -> _. contradiction.
        -- injection E as -> ->. inversion Hb. eauto.
Qed.

Lemma head_filter_None {A} (P : A -> Prop) `{!forall x, Decision (P x)}
    (l : list A) :
  head (filter P l) = None <-> Forall (fun y => ~ P y) l.
Proof.
  rewrite head_None. induction l as [|y l IH]; [split; auto|].
  rewrite filter_cons. destruct (decide (P y)) as [Hy|Hy].
  - split; [discriminate|]. inversion 1; contradiction.
  - rewrite IH. split; [auto|]. inversion 1; assumption.
Qed.

Lemma platform_tag_slug tag slug :
  PLATFORM_TAG_MAP !! tag = Some slug -> Py.truthy slug = true.
Proof.
  unfold PLATFORM_TAG_MAP. intros H. apply elem_of_list_to_map_2 in H.
  repeat (apply elem_of_cons in H as [H|H]; [simplify_eq; reflexivity|]).
  apply elem_of_nil in H. contradiction.
Qed.

End Platform.

(** ** Parsed records *)

Section ParsedShape.

Implicit Types (s t : string) (p : props).

Lemma digit_value_range c :
  Py.is_digit c = true -> (0 <= Py.digit_value c <= 9)%Z.
Proof.
  intros H. apply digit_cases in H.
  repeat (apply elem_of_cons in H as [->|H]; [vm_compute; split; discriminate|]).
  apply elem_of_nil in H. contradiction.
Qed.

(** What [parse_props] returns, field by field. *)
Lemma parse_props_shape s :
  parse_props s = Py.Ok no_props /\ Re.search HOSTNAME_PATTERN s = None
  \/ exists r st f1 f2 sub i1 i2 rest,
       s = (String r st ++ String f1 (String f2 EmptyString) ++ sub
            ++ String i1 (String i2 EmptyString) ++ rest)
       /\ String.length st = 3%nat /\ String.length sub = 2%nat
       /\ Py.is_digit f1 = true /\ Py.is_digit f2 = true
       /\ Py.is_digit i1 = true /\ Py.is_digit i2 = true
       /\ line_tail rest = true
       /\ parse_props s
          = Py.Ok
              {| role := Py.get_or HOSTNAME_ROLE_MAP (Some (String r EmptyString));
                 site := Some st;
                 floor := Some (10 * Py.digit_value f1 + Py.digit_value f2)%Z;
                 subrole := Py.get_or HOSTNAME_SUBROLE_MAP (Some sub);
                 index := Some (10 * Py.digit_value i1 + Py.digit_value i2)%Z;
                 status := Py.get_or HOSTNAME_STATUS_MAP
                             (status_of (strip_dash rest)) |}.
Proof.
  destruct (Re.search HOSTNAME_PATTERN s) as [m|] eqn:Hm.
  - right. unfold parse_props. rewrite Hm.
    apply search_hostname_inv in Hm. destruct Hm.
    exists r, (String s1 (String s2 (String s3 EmptyString))), f1, f2,
      (String u1 (String u2 EmptyString)), i1, i2, rest.
    repeat (split; [first [reflexivity | assumption]|]).
    unfold status_capture.
    destruct (status_of (strip_dash rest)); cbn [app Re.group String.eqb Ascii.eqb Bool.eqb];
      rewrite !int_two_digits by assumption; reflexivity.
  - left. split; [apply parse_props_no_match, Hm|reflexivity].
Qed.

Lemma parse_props_total s : exists p, parse_props s = Py.Ok p.
Proof.
  destruct (parse_props_shape s)
    as [[H _] | (r & st & f1 & f2 & sub & i1 & i2 & rest
                 & _ & _ & _ & _ & _ & _ & _ & _ & H)]; eauto.
Qed.

Lemma get_or_status_values s :
  Py.get_or HOSTNAME_STATUS_MAP (status_of s)
  ∈ [None; Some "active"; Some "standby"; Some "legacy"].
Proof.
  destruct (status_of_cases s) as [-> | [-> | [-> | ->]]]; vm_compute;
    repeat first [left | right].
Qed.

Lemma get_or_table_or_raw tbl c t :
  Py.get_or tbl (Some c) = Some t -> t = c \/ tbl !! c = Some t.
Proof.
  cbn. destruct (tbl !! c) as [v|]; [destruct (Py.truthy v)|];
    intros [= <-]; auto.
Qed.

End ParsedShape.

Section ParsedTags.

Implicit Types (s t : string) (p : props).

Ltac in_table H :=
  unfold HOSTNAME_ROLE_MAP, HOSTNAME_SUBROLE_MAP, HOSTNAME_STATUS_MAP in H;
  apply elem_of_list_to_map_2 in H;
  repeat (apply elem_of_cons in H as [H|H]; [simplify_eq|]);
  [..|apply elem_of_nil in H; contradiction].

Ltac not_a_tag H :=
  unfold NETBOX_TAGS in H;
  repeat (apply elem_of_cons in H as [H|H]; [discriminate H|]);
  apply elem_of_nil in H; contradiction.

Ltac is_a_tag := unfold NETBOX_TAGS; repeat first [left | right].

(** The first loop on a parsed name: only the subrole and the status can
    give a tag. *)
Lemma parsed_tags_sources s p t :
  parse_props s = Py.Ok p ->
  t ∈ parsed_tags p
  <-> (subrole p = Some t
       /\ t ∈ ["access-switch"; "core-router"; "distribution-switch";
               "edge-router"])
      \/ (status p = Some t /\ t ∈ ["active"; "standby"]).
Proof.
  intros Hp. rewrite parsed_tags_elem. split.
  - intros [Ht Hsrc].
    pose proof (netbox_tag_length _ Ht) as Hlen.
    destruct (parse_props_shape s)
      as [[Hno _] | (r & st & f1 & f2 & sub & i1 & i2 & rest & _ & Hst & Hsub
                     & _ & _ & _ & _ & _ & Hshape)].
    { rewrite Hno in Hp. injection Hp as <-. cbn in Hsrc.
      destruct Hsrc as [? | [? | [? | ?]]]; discriminate. }
    rewrite Hshape in Hp. injection Hp as <-.
    cbn [role site subrole status] in *.
    destruct Hsrc as [Hr | [Hs | [Hsb | Hstat]]].
    + apply get_or_table_or_raw in Hr as [-> | Hr]; [cbn in Hlen; lia|].
      in_table Hr; not_a_tag Ht.
    + injection Hs as <-. lia.
    + left. split; [exact Hsb|].
      apply get_or_table_or_raw in Hsb as [-> | Hsb]; [lia|].
      in_table Hsb; first [not_a_tag Ht | repeat first [left | right]].
    + right. split; [exact Hstat|].
      pose proof (get_or_status_values (strip_dash rest)) as Hv.
      rewrite Hstat in Hv.
      repeat (apply elem_of_cons in Hv as [Hv|Hv]; [simplify_eq|]);
        [..|apply elem_of_nil in Hv; contradiction];
        first [not_a_tag Ht | repeat first [left | right]].
  - intros [[Hsb Ht] | [Hstat Ht]].
    + split; [|tauto].
      repeat (apply elem_of_cons in Ht as [->|Ht]; [is_a_tag|]).
      apply elem_of_nil in Ht. contradiction.
    + split; [|tauto].
      repeat (apply elem_of_cons in Ht as [->|Ht]; [is_a_tag|]).
      apply elem_of_nil in Ht. contradiction.
Qed.

End ParsedTags.

Section DerivedTags.

Implicit Types (t : string) (p : props).

Lemma get_device_tags_in_allow_list (dev : device) t :
  t ∈ get_device_tags dev -> t ∈ NETBOX_TAGS.
Proof.
  rewrite get_device_tags_elem, stacked_tags_elem, ranked_tags_elem,
    parsed_tags_elem.
  intros [[[Ht _] | (_ & [[-> _] | [-> _]])] | (-> & _)];
    [exact Ht|unfold NETBOX_TAGS; repeat first [left | right]..].
Qed.

Lemma get_device_tags_no_props (dev : nb_device) :
  get_device_tags {| record := dev; parsed_props := no_props |} = [].
Proof.
  apply elem_of_nil_inv. intros t.
  rewrite get_device_tags_elem, stacked_tags_elem, ranked_tags_elem,
    !parsed_tags_elem.
  cbn [record parsed_props role site subrole status no_props].
  intros H. decompose [and or] H; discriminate.
Qed.

Lemma get_device_tags_NoDup (dev : device) : NoDup (get_device_tags dev).
Proof. unfold get_device_tags. apply NoDup_elements. Qed.

End DerivedTags.

(** ** Newlines and text after the status code *)

Section Lines.

Implicit Types (s t rest : string) (c : ascii).

Lemma word_not_newline c : Py.is_word c = true -> Ascii.eqb c "010" = false.
Proof.
  intros H. destruct (Ascii.eqb_spec c "010") as [->|]; [|reflexivity].
  vm_compute in H. discriminate H.
Qed.

Lemma digit_not_newline c : Py.is_digit c = true -> Ascii.eqb c "010" = false.
Proof.
  intros H. destruct (Ascii.eqb_spec c "010") as [->|]; [|reflexivity].
  vm_compute in H. discriminate H.
Qed.

(** A name the pattern matches has no newline, except as its last
    character. *)
Lemma matched_line_tail s m : matched s m -> line_tail s = true.
Proof.
  intros [].
  rewrite !line_tail_skip
    by first [apply word_not_newline; assumption
             | apply digit_not_newline; assumption].
  assumption.
Qed.

Lemma line_tail_inner_newline s t :
  t <> EmptyString -> line_tail (s ++ String "010" t) = false.
Proof.
  intros Ht. induction s as [|c s IH].
  - rewrite append_empty. cbn. destruct t; [congruence|reflexivity].
  - rewrite append_cons. cbn [line_tail].
    destruct (Ascii.eqb c "010"); [|exact IH].
    destruct s; reflexivity.
Qed.

Lemma line_tail_no_newline s t :
  has_char "010" s = false -> line_tail (s ++ t) = line_tail t.
Proof.
  induction s as [|c s IH]; intros H; [reflexivity|].
  cbn in H. apply orb_false_iff in H as [Hc H].
  rewrite append_cons, line_tail_skip by exact Hc. auto.
Qed.

Lemma has_char_app c s t :
  has_char c (s ++ t) = has_char c s || has_char c t.
Proof.
  induction s as [|c' s IH]; [reflexivity|].
  rewrite append_cons. cbn. rewrite IH. apply orb_assoc.
Qed.

End Lines.

Section Suffix.

Implicit Types (s t x rest : string) (c : ascii).

Ltac split_eqb :=
  repeat match goal with
         | |- context [Ascii.eqb ?x ?y] =>
             is_var y; destruct (Ascii.eqb_spec x y); [subst y|]
         | H : context [Ascii.eqb ?x ?y] |- _ =>
             is_var y; destruct (Ascii.eqb_spec x y); [subst y|]
         end.

Lemma line_tail_clean s : has_char "010" s = false -> line_tail s = true.
Proof.
  induction s as [|c s IH]; intros H; [reflexivity|].
  cbn in H. apply orb_false_iff in H as [Hc H].
  rewrite line_tail_skip by exact Hc. auto.
Qed.

Lemma status_of_short x :
  (String.length x < 3)%nat -> status_of x = None.
Proof.
  destruct x as [|a [|b [|c x]]]; cbn [String.length]; try lia; intros _;
    unfold status_of; cbn [starts_with]; split_eqb; reflexivity.
Qed.

(** The status code is read off the first three characters. *)
Lemma status_of_app x t :
  (3 <= String.length x)%nat -> status_of (x ++ t) = status_of x.
Proof.
  destruct x as [|a [|b [|c x]]]; cbn [String.length]; try lia; intros _.
  reflexivity.
Qed.

Lemma status_of_newline x :
  status_of (x ++ String "010" EmptyString) = status_of x.
Proof.
  destruct (le_lt_dec 3 (String.length x)) as [H|H].
  - apply status_of_app, H.
  - rewrite (status_of_short x H).
    destruct x as [|a [|b [|c x]]]; cbn [String.length] in H; try lia;
      rewrite ?append_cons, ?append_empty; unfold status_of;
      cbn [starts_with]; split_eqb; reflexivity.
Qed.

Lemma strip_dash_app rest t :
  rest <> EmptyString -> strip_dash (rest ++ t) = strip_dash rest ++ t.
Proof.
  destruct rest as [|c rest]; [congruence|]. intros _.
  rewrite append_cons. cbn [strip_dash].
  destruct (Ascii.eqb "-" c); reflexivity.
Qed.

Lemma status_capture_newline rest :
  status_capture (rest ++ String "010" EmptyString) = status_capture rest.
Proof.
  unfold status_capture. destruct rest as [|c rest]; [reflexivity|].
  rewrite strip_dash_app, status_of_newline by discriminate. reflexivity.
Qed.

Lemma status_capture_app rest t (code : string) :
  status_of (strip_dash rest) = Some code ->
  status_capture (rest ++ t) = status_capture rest.
Proof.
  intros Hc. unfold status_capture.
  destruct rest as [|c0 rest]; [discriminate Hc|].
  rewrite strip_dash_app by discriminate.
  rewrite status_of_app; [reflexivity|].
  destruct (le_lt_dec 3 (String.length (strip_dash (String c0 rest))))
    as [H|H]; [exact H|].
  rewrite (status_of_short _ H) in Hc. discriminate Hc.
Qed.

Lemma parse_props_search s s' :
  Re.search HOSTNAME_PATTERN s = Re.search HOSTNAME_PATTERN s' ->
  parse_props s = parse_props s'.
Proof. intros H. unfold parse_props. rewrite H. reflexivity. Qed.

End Suffix.

Section SuffixSearch.

Implicit Types (h t : string).

Lemma search_append_status h t m code :
  Re.search HOSTNAME_PATTERN h = Some m ->
  Re.group m "status" = Some code ->
  has_char "010" h = false -> has_char "010" t = false ->
  Re.search HOSTNAME_PATTERN (h ++ t) = Some m.
Proof.
  intros Hm Hg Hh Ht. apply search_hostname_inv in Hm. destruct Hm.
  rewrite search_hostname, !append_cons. unfold hostname_fields.
  repeat match goal with
         | H : Py.is_word _ = true |- _ => rewrite H; clear H
         | H : Py.is_digit _ = true |- _ => rewrite H; clear H
         end.
  cbn [andb].
  cbn [has_char] in Hh.
  repeat (apply orb_false_iff in Hh as [_ Hh]).
  rewrite line_tail_no_newline, (line_tail_clean t) by assumption.
  unfold status_capture in Hg.
  destruct (status_of (strip_dash rest)) as [c|] eqn:Hc;
    [|discriminate Hg].
  rewrite (status_capture_app rest t c Hc). reflexivity.
Qed.

Lemma hostname_fields_newline h :
  has_char "010" h = false ->
  hostname_fields (h ++ String "010" EmptyString) = hostname_fields h.
Proof.
  intros Hh.
  do 9 (destruct h as [|? h]; [reflexivity|rewrite append_cons]).
  destruct h as [|? h].
  - rewrite append_empty. unfold hostname_fields.
    change (Py.is_digit "010") with false.
    rewrite !andb_false_r. reflexivity.
  - rewrite append_cons. unfold hostname_fields.
    cbn [has_char] in Hh.
    repeat (apply orb_false_iff in Hh as [_ Hh]).
    rewrite line_tail_no_newline, (line_tail_clean h) by assumption.
    rewrite status_capture_newline. reflexivity.
Qed.

End SuffixSearch.

(** ** The scanned group *)

Section StpFacts.

Implicit Types (devices : list device) (d : device).

Lemma get_stp_root_candidates devices :
  primary (get_stp_root devices)
  = last (filter (fun x => index (parsed_props x) = Some 1%Z)
            (stp_candidates devices))
  /\ secondary (get_stp_root devices)
     = last (filter (fun x => index (parsed_props x) = Some 2%Z)
               (stp_candidates devices)).
Proof.
  assert (Hroot : get_stp_root devices
                  = foldl stp_scan {| primary := None; secondary := None |}
                      (stp_candidates devices)).
  { unfold get_stp_root, stp_candidates.
    destruct (get_devices_with_subrole devices "distribution-switch");
      reflexivity. }
  destruct (stp_scan_fold (stp_candidates devices)
              {| primary := None; secondary := None |}) as [Hp Hs].
  rewrite Hroot, Hp, Hs. cbn [primary secondary].
  assert (Hopt : forall o : option device, from_option Some None o = o)
    by (intros []; reflexivity).
  rewrite !Hopt. split; reflexivity.
Qed.

Lemma stp_candidates_elem devices d :
  d ∈ stp_candidates devices
  <-> d ∈ devices
      /\ (subrole (parsed_props d) = Some "distribution-switch"
          \/ (subrole (parsed_props d) = Some "core-router"
              /\ forall x, x ∈ devices ->
                           subrole (parsed_props x)
                           <> Some "distribution-switch")).
Proof.
  unfold stp_candidates, get_devices_with_subrole.
  destruct (filter _ devices) as [|sw sws] eqn:E.
  - rewrite list_elem_of_filter.
    assert (Hno : forall x, x ∈ devices ->
                subrole (parsed_props x) <> Some "distribution-switch").
    { intros x Hx Hsub.
      assert (Hin : x ∈ filter
                (fun x => subrole (parsed_props x) = Some "distribution-switch")
                devices) by (apply list_elem_of_filter; auto).
      rewrite E in Hin. apply elem_of_nil in Hin. exact Hin. }
    split.
    + intros [Hsub Hd]. auto.
    + intros [Hd [Hsub | [Hsub _]]]; [destruct (Hno d Hd Hsub)|auto].
  - rewrite <- E, list_elem_of_filter.
    assert (Hsw : sw ∈ devices
                  /\ subrole (parsed_props sw) = Some "distribution-switch").
    { assert (Hin : sw ∈ filter
                (fun x => subrole (parsed_props x) = Some "distribution-switch")
                devices) by (rewrite E; left).
      apply list_elem_of_filter in Hin. tauto. }
    split.
    + intros [Hsub Hd]. auto.
    + intros [Hd [Hsub | [_ Hno]]]; [auto|].
      destruct Hsw as [Hsw Hsub]. destruct (Hno sw Hsw Hsub).
Qed.

Lemma last_filter_Some {A} (P : A -> Prop) `{!forall x, Decision (P x)}
    (l : list A) (x : A) :
  last (filter P l) = Some x -> x ∈ l /\ P x.
Proof.
  intros Hl. apply last_Some in Hl as [l' E].
  assert (Hin : x ∈ filter P l) by (rewrite E, elem_of_app; right; left).
  apply list_elem_of_filter in Hin. tauto.
Qed.

Lemma last_filter_None {A} (P : A -> Prop) `{!forall x, Decision (P x)}
    (l : list A) :
  last (filter P l) = None <-> forall x, x ∈ l -> ~ P x.
Proof.
  rewrite last_None. split.
  - intros E x Hx HP.
    assert (Hin : x ∈ filter P l) by (apply list_elem_of_filter; auto).
    rewrite E in Hin. apply elem_of_nil in Hin. exact Hin.
  - intros Hno. apply elem_of_nil_inv. intros x [HP Hx]%list_elem_of_filter.
    exact (Hno x Hx HP).
Qed.

Lemma get_devices_with_subrole_filter (P : device -> Prop)
    `{!forall d, Decision (P d)} devices (wanted : string) :
  (forall d, subrole (parsed_props d) = Some wanted -> P d) ->
  get_devices_with_subrole (filter P devices) wanted
  = get_devices_with_subrole devices wanted.
Proof.
  intros HP. unfold get_devices_with_subrole.
  rewrite list_filter_filter. apply list_filter_iff. intros d.
  split; [tauto|]. intros Hd. split; [exact Hd|apply HP, Hd].
Qed.

End StpFacts.

Section StpOrder.

Implicit Types (devices : list device) (d : device).

Lemma at_most_one {A B} (f : A -> B) (l : list A) (b : B) :
  NoDup (f <$> l) -> (forall x, x ∈ l -> f x = b) ->
  l = [] \/ exists x, l = [x].
Proof.
  destruct l as [|x [|y l]]; [auto|eauto|]. intros Hnd Hall. exfalso.
  cbn in Hnd. apply NoDup_cons in Hnd as [Hnotin _]. apply Hnotin.
  rewrite (Hall x), <- (Hall y); [left|right; left|left].
Qed.

Lemma Permutation_at_most_one {A} (l k : list A) :
  l ≡ₚ k -> l = [] \/ (exists x, l = [x]) -> l = k.
Proof.
  intros Hperm [-> | [x ->]].
  - symmetry. apply Permutation_nil_l in Hperm. congruence.
  - apply Permutation_singleton_l in Hperm. exact Hperm.
Qed.

Lemma stp_candidates_Permutation devices devices' :
  devices ≡ₚ devices' -> stp_candidates devices ≡ₚ stp_candidates devices'.
Proof.
  intros Hperm. unfold stp_candidates, get_devices_with_subrole.
  pose proof (filter_Permutation
                (fun x => subrole (parsed_props x) = Some "distribution-switch")
                _ _ Hperm) as Hds.
  pose proof (filter_Permutation
                (fun x => subrole (parsed_props x) = Some "core-router")
                _ _ Hperm) as Hcr.
  destruct (filter _ devices) as [|sw sws] eqn:E.
  - apply Permutation_nil_l in Hds. rewrite <- Hds. exact Hcr.
  - destruct (filter (fun x => subrole (parsed_props x)
                               = Some "distribution-switch") devices')
      as [|sw' sws'] eqn:E'; [|exact Hds].
    apply Permutation_nil_r in Hds. discriminate Hds.
Qed.

Lemma stp_candidates_sublist devices :
  sublist (stp_candidates devices) devices.
Proof.
  unfold stp_candidates, get_devices_with_subrole.
  destruct (filter _ devices) as [|sw sws] eqn:E.
  - apply sublist_filter.
  - rewrite <- E. apply sublist_filter.
Qed.

Lemma stp_candidates_subrole devices :
  exists wanted, forall d, d ∈ stp_candidates devices ->
                           subrole (parsed_props d) = Some wanted.
Proof.
  unfold stp_candidates, get_devices_with_subrole.
  destruct (filter _ devices) as [|sw sws] eqn:E.
  - exists "core-router". intros d [Hd _]%list_elem_of_filter. exact Hd.
  - exists "distribution-switch". rewrite <- E.
    intros d [Hd _]%list_elem_of_filter. exact Hd.
Qed.

End StpOrder.

(** ** The device list of a run *)

Section Inventory.

Implicit Types (devices : list nb_device) (s : string) (p : props).

Lemma parse_devices_spec devices :
  exists ds,
    parse_devices devices = Py.Ok ds
    /\ record <$> ds = devices
    /\ Forall (fun d => parse_props (dev_name (record d))
                        = Py.Ok (parsed_props d)) ds.
Proof.
  induction devices as [|dev rest (ds & Hds & Hrec & Hall)].
  - exists []. repeat split. constructor.
  - cbn [parse_devices]. unfold parse_hostname.
    destruct (parse_props_total (dev_name dev)) as [p Hp].
    rewrite Hp, Hds. cbn [Py.bind]. eexists. split; [reflexivity|]. split.
    + cbn. rewrite Hrec. reflexivity.
    + constructor; [exact Hp|exact Hall].
Qed.




End Inventory.

(** ** Properties *)

(** X1. [arg_list] splits at every comma: joining the pieces with commas
    gives the string back, no piece holds a comma, and there is one piece
    more than there are commas (so the empty string gives one empty
    piece). *)
Theorem arg_list_round_trip (s : string) :
  join "," (arg_list s) = s
  /\ Forall (fun piece => has_char "," piece = false) (arg_list s)
  /\ length (arg_list s) = S (count_char "," s).
Proof.
  unfold arg_list. split; [apply join_split|apply split_pieces].
Qed.

(** X2. [arg_list] undoes a join: a non-empty list of pieces without commas,
    joined with commas, splits back into the same pieces. *)
Theorem arg_list_of_join (pieces : list string) :
  pieces <> [] ->
  Forall (fun piece => has_char "," piece = false) pieces ->
  arg_list (join "," pieces) = pieces.
Proof. apply split_join. Qed.

Lemma arg_list_of_join_witness :
  arg_list (join "," ["FUL"; ""; "NYC"]) = ["FUL"; ""; "NYC"].
Proof.
  apply arg_list_of_join; [discriminate|].
  repeat constructor.
Defined.

(** X3. [get_platform_id] over a bound platform list never raises; it
    returns the id of the first platform with the slug, in list order, and
    [None] exactly when no platform has the slug.  With the name [platforms]
    unbound it raises [NameError]. *)
Theorem get_platform_id_first (ps : list platform) (slug : string) :
  (forall i,
      get_platform_id (Some ps) slug = Py.Ok (Some i)
      <-> exists before p after,
            ps = (before ++ p :: after)%list
            /\ platform_slug p = slug /\ platform_id p = i
            /\ Forall (fun q => platform_slug q <> slug) before)
  /\ (get_platform_id (Some ps) slug = Py.Ok None
      <-> Forall (fun q => platform_slug q <> slug) ps)
  /\ (forall e, get_platform_id (Some ps) slug <> Py.Raise e)
  /\ get_platform_id None slug = Py.Raise Py.NameError.
Proof.
  unfold get_platform_id. split; [|split; [|split]].
  - intros i. split.
    + intros [= H]. destruct (head _) as [p|] eqn:Hp; [|discriminate H].
      injection H as <-. apply head_filter_Some in Hp as (b & a & E & Hs & Hb).
      exists b, p, a. auto.
    + intros (b & p & a & E & Hs & <- & Hb).
      assert (Hp : head (filter (fun q => platform_slug q = slug) ps) = Some p)
        by (apply head_filter_Some; eauto).
      rewrite Hp. reflexivity.
  - split.
    + intros [= H].
      apply (head_filter_None (fun q => platform_slug q = slug)).
      destruct (head (filter _ ps)); [discriminate H|reflexivity].
    + intros HF.
      apply (head_filter_None (fun q => platform_slug q = slug)) in HF.
      rewrite HF. reflexivity.
  - discriminate.
  - reflexivity.
Qed.

Lemma get_platform_id_first_witness :
  get_platform_id (Some inventory_platforms) "ios" = Py.Ok (Some 4%Z).
Proof.
  apply (get_platform_id_first inventory_platforms "ios").
  exists [ {| platform_id := 1; platform_slug := "eos" |} ],
    {| platform_id := 4; platform_slug := "ios" |},
    [ {| platform_id := 9; platform_slug := "ios" |} ].
  repeat split. repeat constructor. discriminate.
Defined.

(** X4. [verify_platform] reads the device's id, whether its platform is
    set and its first tag only: two devices that agree on these get the
    same outcome, whatever their names, models and further tags. *)
Theorem verify_platform_first_tag_only
    (platforms : option (list platform)) (dev dev' : nb_device) :
  dev_id dev = dev_id dev' ->
  (is_Some (dev_platform dev) <-> is_Some (dev_platform dev')) ->
  head (dev_tags dev) = head (dev_tags dev') ->
  verify_platform platforms dev = verify_platform platforms dev'.
Proof.
  intros Hid Hpf Htag. unfold verify_platform. rewrite Hid.
  destruct (dev_platform dev) as [p|], (dev_platform dev') as [p'|];
    try reflexivity.
  - destruct Hpf as [Hpf _]. destruct (Hpf ltac:(eauto)) as [? [=]].
  - destruct Hpf as [_ Hpf]. destruct (Hpf ltac:(eauto)) as [? [=]].
  - destruct (dev_tags dev) as [|t ts], (dev_tags dev') as [|t' ts'];
      cbn in Htag; simplify_eq; reflexivity.
Qed.

Lemma verify_platform_first_tag_only_witness :
  verify_platform (Some inventory_platforms) access_device
  = verify_platform (Some inventory_platforms) access_device_retagged.
Proof.
  apply verify_platform_first_tag_only; [reflexivity| |reflexivity].
  split; intros [? [=]].
Defined.



(** X6. With [platforms] bound, [verify_platform] raises only [IndexError],
    on a device without platform and without tags; what it sends is nothing
    or one platform update for the device's own id, and it sends that
    update for every device without platform whose first tag is mapped,
    also when no platform has the mapped slug (the id sent is then
    [None]). *)
Theorem verify_platform_bound (ps : list platform) (dev : nb_device) :
  (forall e, verify_platform (Some ps) dev = Py.Raise e ->
             e = Py.IndexError /\ dev_platform dev = None /\ dev_tags dev = [])
  /\ (forall reqs, verify_platform (Some ps) dev = Py.Ok reqs ->
        reqs = []
        \/ exists tag rest slug pid,
             dev_platform dev = None
             /\ dev_tags dev = tag :: rest
             /\ PLATFORM_TAG_MAP !! tag = Some slug
             /\ get_platform_id (Some ps) slug = Py.Ok pid
             /\ reqs = [UpdateDeviceById (dev_id dev) pid])
  /\ (forall tag rest slug,
        dev_platform dev = None -> dev_tags dev = tag :: rest ->
        PLATFORM_TAG_MAP !! tag = Some slug ->
        exists pid, verify_platform (Some ps) dev
                    = Py.Ok [UpdateDeviceById (dev_id dev) pid]).
Proof.
  unfold verify_platform.
  destruct (dev_platform dev) as [p|].
  { split; [discriminate|]. split; [intros reqs [= <-]; auto|]. discriminate. }
  destruct (dev_tags dev) as [|tag rest]; cbn [Py.bind].
  { split; [intros e [= <-]; auto|]. split; discriminate. }
  destruct (PLATFORM_TAG_MAP !! tag) as [slug|] eqn:Hslug.
  - rewrite (platform_tag_slug _ _ Hslug). cbn.
    split; [discriminate|]. split.
    + intros reqs [= <-]. right. exists tag, rest, slug. eauto 10.
    + intros tag' rest' slug' _ [= <- <-] _. eauto.
  - split; [discriminate|]. split; [intros reqs [= <-]; auto|].
    intros tag' rest' slug' _ [= <- <-] H. congruence.
Qed.

Lemma verify_platform_bound_witness :
  exists pid,
    verify_platform (Some inventory_platforms) access_device
    = Py.Ok [UpdateDeviceById 12 pid].
Proof.
  destruct (verify_platform_bound inventory_platforms access_device)
    as (_ & _ & Hsend).
  apply (Hsend "Network-IOS" [] "ios"); [reflexivity..|].
  vm_compute. reflexivity.
Defined.

(** X7. In the record [parse_hostname] attaches, a floor and an index lie
    between 0 and 99, and the site is the three characters at offset 1 of
    the name, unchanged. *)
Theorem parse_number_ranges (dev : nb_device) :
  exists p,
    parse_hostname dev = Py.Ok {| record := dev; parsed_props := p |}
    /\ (forall f, floor p = Some f -> (0 <= f <= 99)%Z)
    /\ (forall i, index p = Some i -> (0 <= i <= 99)%Z)
    /\ (forall st, site p = Some st ->
                   st = String.substring 1 3 (dev_name dev)).
Proof.
  unfold parse_hostname.
  destruct (parse_props_shape (dev_name dev))
    as [[Hno _] | (r & st & f1 & f2 & sub & i1 & i2 & rest & Hname & Hst & _
                   & Hf1 & Hf2 & Hi1 & Hi2 & _ & Hshape)].
  - rewrite Hno. eexists. split; [reflexivity|]. cbn. repeat split; discriminate.
  - rewrite Hshape. eexists. split; [reflexivity|].
    cbn [floor index site].
    apply digit_value_range in Hf1, Hf2, Hi1, Hi2.
    split; [intros ? [= <-]; lia|]. split; [intros ? [= <-]; lia|].
    intros ? [= <-]. rewrite Hname.
    destruct st as [|a [|b [|c [|]]]]; try discriminate Hst. reflexivity.
Qed.

(** X8. The parsed status is [None], "active", "standby" or "legacy": a raw
    status code never shows up. *)
Theorem parse_status_values (dev : nb_device) :
  exists p,
    parse_hostname dev = Py.Ok {| record := dev; parsed_props := p |}
    /\ status p ∈ [None; Some "active"; Some "standby"; Some "legacy"].
Proof.
  unfold parse_hostname.
  destruct (parse_props_shape (dev_name dev))
    as [[Hno _] | (r & st & f1 & f2 & sub & i1 & i2 & rest & _ & _ & _
                   & _ & _ & _ & _ & _ & Hshape)].
  - rewrite Hno. eexists. split; [reflexivity|]. left.
  - rewrite Hshape. eexists. split; [reflexivity|].
    apply get_or_status_values.
Qed.

(** X9. A name with a newline that is not its last character does not
    parse: all six fields stay [None]. *)
Theorem inner_newline_unparseable (dev : nb_device) (before after : string) :
  dev_name dev = before ++ String "010" after ->
  after <> EmptyString ->
  parse_hostname dev = Py.Ok {| record := dev; parsed_props := no_props |}.
Proof.
  intros Hname Hafter. apply parse_hostname_no_match.
  destruct (Re.search HOSTNAME_PATTERN (dev_name dev)) as [m|] eqn:Hm;
    [|reflexivity].
  apply search_hostname_inv, matched_line_tail in Hm.
  rewrite Hname, line_tail_inner_newline in Hm by exact Hafter.
  discriminate Hm.
Qed.

Lemma inner_newline_unparseable_witness :
  parse_hostname two_line_device
  = Py.Ok {| record := two_line_device; parsed_props := no_props |}.
Proof.
  apply (inner_newline_unparseable two_line_device "RFUL01AC02-ACT" "rack 4").
  - reflexivity.
  - discriminate.
Defined.

(** X10. A newline at the very end of a name is not seen: a name without
    newline and the same name followed by one newline parse to the same
    record. *)
Theorem trailing_newline_ignored (dev dev' : nb_device) :
  has_char "010" (dev_name dev) = false ->
  dev_name dev' = dev_name dev ++ String "010" EmptyString ->
  exists p,
    parse_hostname dev = Py.Ok {| record := dev; parsed_props := p |}
    /\ parse_hostname dev' = Py.Ok {| record := dev'; parsed_props := p |}.
Proof.
  intros Hh Hname.
  assert (Hs : Re.search HOSTNAME_PATTERN (dev_name dev')
               = Re.search HOSTNAME_PATTERN (dev_name dev)).
  { rewrite Hname, !search_hostname. apply hostname_fields_newline, Hh. }
  unfold parse_hostname. rewrite (parse_props_search _ _ Hs).
  destruct (Re.search HOSTNAME_PATTERN (dev_name dev)) as [m|] eqn:Hm.
  - destruct (parse_props_match _ _ Hm) as (fl & ix & _ & _ & Hp).
    rewrite Hp. eauto.
  - rewrite (parse_props_no_match _ Hm). eauto.
Qed.

Lemma trailing_newline_ignored_witness :
  exists p,
    parse_hostname active_device
    = Py.Ok {| record := active_device; parsed_props := p |}
    /\ parse_hostname newline_device
       = Py.Ok {| record := newline_device; parsed_props := p |}.
Proof.
  apply (trailing_newline_ignored active_device newline_device);
    vm_compute; reflexivity.
Defined.

(** X11. Text after the status code is ignored: when a name without newline
    matches with a status code, appending any text without newline leaves
    the parsed record unchanged. *)
Theorem text_after_status_ignored (dev dev' : nb_device) (t : string)
    (m : Re.captures) (code : string) :
  Re.search HOSTNAME_PATTERN (dev_name dev) = Some m ->
  Re.group m "status" = Some code ->
  has_char "010" (dev_name dev) = false -> has_char "010" t = false ->
  dev_name dev' = dev_name dev ++ t ->
  exists p,
    parse_hostname dev = Py.Ok {| record := dev; parsed_props := p |}
    /\ parse_hostname dev' = Py.Ok {| record := dev'; parsed_props := p |}.
Proof.
  intros Hm Hg Hh Ht Hname.
  pose proof (search_append_status _ _ _ _ Hm Hg Hh Ht) as Hm'.
  rewrite <- Hname in Hm'.
  destruct (parse_hostname_match _ _ Hm) as (fl & ix & Hfl & Hix & Hp).
  destruct (parse_hostname_match _ _ Hm') as (fl' & ix' & Hfl' & Hix' & Hp').
  assert (fl' = fl) by congruence. assert (ix' = ix) by congruence. subst.
  eauto.
Qed.

Lemma text_after_status_ignored_witness :
  exists p,
    parse_hostname active_device
    = Py.Ok {| record := active_device; parsed_props := p |}
    /\ parse_hostname active_device_note
       = Py.Ok {| record := active_device_note; parsed_props := p |}.
Proof.
  apply (text_after_status_ignored active_device active_device_note
           "-spare-stack"
           [("status", "ACT"); ("index", "01"); ("subrole", "DS");
            ("floor", "02"); ("site", "FUL"); ("role", "S")] "ACT");
    vm_compute; reflexivity.
Defined.

(** X12. [get_device_tags] returns no tag twice, and only tags of
    [NETBOX_TAGS], for every device record. *)
Theorem get_device_tags_allow_listed (dev : device) :
  NoDup (get_device_tags dev)
  /\ forall t, t ∈ get_device_tags dev -> t ∈ NETBOX_TAGS.
Proof.
  split; [apply get_device_tags_NoDup|].
  intros t. apply get_device_tags_in_allow_list.
Qed.

(** X13. The tags of a device after [parse_hostname]: the subrole when it is
    one of the four subrole tags, the status when it is "active" or
    "standby", "primary" or "secondary" for a distribution switch or core
    router of index 1 or 2, and "access-switch" for a core router whose model
    contains "3850" or "3750"; role and site never give a tag, and no device
    is tagged both "primary" and "secondary". *)
Theorem tags_of_parsed_device (dev : nb_device) :
  exists d,
    parse_hostname dev = Py.Ok d /\ record d = dev
    /\ let p := parsed_props d in
       let ranked :=
         subrole p = Some "distribution-switch"
         \/ subrole p = Some "core-router" in
       (forall t,
           t ∈ get_device_tags d
           <-> (subrole p = Some t
                /\ t ∈ ["access-switch"; "core-router"; "distribution-switch";
                        "edge-router"])
               \/ (status p = Some t /\ t ∈ ["active"; "standby"])
               \/ (t = "primary" /\ ranked /\ index p = Some 1%Z)
               \/ (t = "secondary" /\ ranked /\ index p = Some 2%Z)
               \/ (t = "access-switch" /\ subrole p = Some "core-router"
                   /\ (Py.contains "3850" (dev_model dev) = true
                       \/ Py.contains "3750" (dev_model dev) = true)))
       /\ ~ ("primary" ∈ get_device_tags d /\ "secondary" ∈ get_device_tags d).
Proof.
  unfold parse_hostname.
  destruct (parse_props_total (dev_name dev)) as [p Hp]. rewrite Hp.
  eexists. split; [reflexivity|]. split; [reflexivity|].
  cbn [parsed_props record Py.bind]. cbv zeta.
  assert (Hsub : forall t,
             t ∈ ["access-switch"; "core-router"; "distribution-switch";
                  "edge-router"] ->
             t ∈ parsed_tags p <-> subrole p = Some t).
  { intros t Ht. rewrite (parsed_tags_sources _ _ _ Hp). split; [|tauto].
    intros [[H _] | [_ H]]; [exact H|].
    exfalso.
    repeat (apply elem_of_cons in Ht as [->|Ht];
            [repeat (apply elem_of_cons in H as [H|H]; [discriminate H|]);
             apply elem_of_nil in H; exact H|]).
    apply elem_of_nil in Ht. exact Ht. }
  assert (Hds := Hsub "distribution-switch" ltac:(repeat first [left|right])).
  assert (Hcr := Hsub "core-router" ltac:(repeat first [left|right])).
  assert (Hno : forall t, t = "primary" \/ t = "secondary" -> t ∉ parsed_tags p).
  { intros t Ht. rewrite (parsed_tags_sources _ _ _ Hp).
    intros [[_ H] | [_ H]]; destruct Ht as [-> | ->];
      repeat (apply elem_of_cons in H as [H|H]; [discriminate H|]);
      apply elem_of_nil in H; exact H. }
  assert (Hall : forall t,
             t ∈ get_device_tags {| record := dev; parsed_props := p |}
             <-> t ∈ parsed_tags p
                 \/ (t = "primary"
                     /\ (subrole p = Some "distribution-switch"
                         \/ subrole p = Some "core-router")
                     /\ index p = Some 1%Z)
                 \/ (t = "secondary"
                     /\ (subrole p = Some "distribution-switch"
                         \/ subrole p = Some "core-router")
                     /\ index p = Some 2%Z)
                 \/ (t = "access-switch" /\ subrole p = Some "core-router"
                     /\ (Py.contains "3850" (dev_model dev) = true
                         \/ Py.contains "3750" (dev_model dev) = true))).
  { intros t. rewrite get_device_tags_elem, stacked_tags_elem, ranked_tags_elem.
    cbn [record parsed_props]. rewrite Hds, Hcr. tauto. }
  split.
  - intros t. rewrite Hall, (parsed_tags_sources _ _ _ Hp). tauto.
  - rewrite !Hall. intros [H1 H2].
    pose proof (Hno "primary" ltac:(auto)).
    pose proof (Hno "secondary" ltac:(auto)).
    destruct H1 as [? | [(_ & _ & H1) | [([=] & _) | ([=] & _)]]]; [tauto|].
    destruct H2 as [? | [([=] & _) | [(_ & _ & H2) | ([=] & _)]]]; [tauto|].
    congruence.
Qed.

(** X14. A device whose name the pattern does not match gets no tags from
    [get_device_tags], and [update_device_tags] sends nothing for it. *)
Theorem unparseable_name_no_update (dev : nb_device) :
  Re.search HOSTNAME_PATTERN (dev_name dev) = None ->
  exists d,
    parse_hostname dev = Py.Ok d
    /\ get_device_tags d = [] /\ update_device_tags d = [].
Proof.
  intros Hm. eexists. split; [apply parse_hostname_no_match, Hm|].
  split; [apply get_device_tags_no_props|].
  unfold update_device_tags. rewrite get_device_tags_no_props. reflexivity.
Qed.

Lemma unparseable_name_no_update_witness :
  exists d,
    parse_hostname bare_device = Py.Ok d /\ update_device_tags d = [].
Proof.
  destruct (unparseable_name_no_update bare_device) as (d & Hd & _ & Hu).
  - vm_compute. reflexivity.
  - exists d. split; assumption.
Defined.

(** X15. [update_device_tags] sends nothing or one update by the device's
    own name, whose tags are distinct, in [NETBOX_TAGS] and not yet on the
    device; when the derivation is not empty and the device already has all
    derived tags, the update is still sent, with an empty tag list. *)
Theorem update_device_tags_request (dev : device) :
  (update_device_tags dev = []
   \/ exists ts,
        update_device_tags dev = [UpdateDevice (dev_name (record dev)) ts]
        /\ NoDup ts
        /\ forall t, t ∈ ts -> t ∈ NETBOX_TAGS /\ t ∉ dev_tags (record dev))
  /\ (get_device_tags dev <> [] ->
      (forall t, t ∈ get_device_tags dev -> t ∈ dev_tags (record dev)) ->
      update_device_tags dev = [UpdateDevice (dev_name (record dev)) []]).
Proof.
  unfold update_device_tags.
  pose proof (get_device_tags_NoDup dev) as Hnd.
  pose proof (get_device_tags_in_allow_list dev) as Htag.
  destruct (get_device_tags dev) as [|t0 l] eqn:E.
  - split; [left; reflexivity|congruence].
  - split.
    + right. eexists. split; [reflexivity|]. split.
      * apply NoDup_filter, Hnd.
      * intros t [Hout Hin]%list_elem_of_filter. auto.
    + intros _ Hall. f_equal. f_equal.
      apply elem_of_nil_inv. intros t [Hout Hin]%list_elem_of_filter.
      apply Hout, Hall, Hin.
Qed.

Lemma update_device_tags_request_witness :
  update_device_tags tagged_core = [UpdateDevice "RFUL01CR09" []].
Proof.
  apply (update_device_tags_request tagged_core).
  - vm_compute. discriminate.
  - intros t Ht. vm_compute in Ht.
    apply elem_of_cons in Ht as [->|Ht]; [left|].
    apply elem_of_nil in Ht. contradiction.
Defined.

(** X16. What [get_stp_root] returns is in the list: primary has index 1 and
    secondary index 2, each is a distribution switch, or a core router of a
    list without distribution switch; primary and secondary have the same
    subrole and are never the same device. *)
Theorem stp_root_sound (devices : list device) :
  let group d :=
    subrole (parsed_props d) = Some "distribution-switch"
    \/ (subrole (parsed_props d) = Some "core-router"
        /\ forall x, x ∈ devices ->
                     subrole (parsed_props x) <> Some "distribution-switch") in
  (forall d, primary (get_stp_root devices) = Some d ->
             d ∈ devices /\ index (parsed_props d) = Some 1%Z /\ group d)
  /\ (forall d, secondary (get_stp_root devices) = Some d ->
                d ∈ devices /\ index (parsed_props d) = Some 2%Z /\ group d)
  /\ (forall d1 d2,
        primary (get_stp_root devices) = Some d1 ->
        secondary (get_stp_root devices) = Some d2 ->
        subrole (parsed_props d1) = subrole (parsed_props d2) /\ d1 <> d2).
Proof.
  intros group. subst group.
  destruct (get_stp_root_candidates devices) as [Hp Hs].
  assert (H1 : forall d, primary (get_stp_root devices) = Some d ->
             d ∈ devices /\ index (parsed_props d) = Some 1%Z
             /\ (subrole (parsed_props d) = Some "distribution-switch"
                 \/ (subrole (parsed_props d) = Some "core-router"
                     /\ forall x, x ∈ devices ->
                          subrole (parsed_props x)
                          <> Some "distribution-switch"))).
  { intros d Hd. rewrite Hp in Hd.
    apply last_filter_Some in Hd as [Hin Hix].
    apply stp_candidates_elem in Hin. tauto. }
  assert (H2 : forall d, secondary (get_stp_root devices) = Some d ->
             d ∈ devices /\ index (parsed_props d) = Some 2%Z
             /\ (subrole (parsed_props d) = Some "distribution-switch"
                 \/ (subrole (parsed_props d) = Some "core-router"
                     /\ forall x, x ∈ devices ->
                          subrole (parsed_props x)
                          <> Some "distribution-switch"))).
  { intros d Hd. rewrite Hs in Hd.
    apply last_filter_Some in Hd as [Hin Hix].
    apply stp_candidates_elem in Hin. tauto. }
  split; [exact H1|]. split; [exact H2|].
  intros d1 d2 Hd1 Hd2.
  destruct (H1 d1 Hd1) as (Hin1 & Hi1 & Hg1).
  destruct (H2 d2 Hd2) as (Hin2 & Hi2 & Hg2).
  split.
  - destruct Hg1 as [E1 | [E1 Hno1]], Hg2 as [E2 | [E2 Hno2]];
      try congruence.
    + destruct (Hno2 d1 Hin1 E1).
    + destruct (Hno1 d2 Hin2 E2).
  - intros ->. congruence.
Qed.

Lemma stp_root_sound_witness :
  dist1b ∈ [dist1; core2; dist1b; dist3]
  /\ index (parsed_props dist1b) = Some 1%Z.
Proof.
  destruct (stp_root_sound [dist1; core2; dist1b; dist3]) as (Hp & _ & _).
  destruct (Hp dist1b) as (Hin & Hix & _); [vm_compute; reflexivity|].
  split; assumption.
Defined.

(** X17. One distribution switch in the list hides the core routers: when no
    distribution switch has index 1 (or 2), primary (or secondary) is [None]
    even if a core router has that index, and the result is that of the
    distribution switches alone. *)
Theorem distribution_switches_shadow_core_routers (devices : list device)
    (switch : device) :
  switch ∈ devices ->
  subrole (parsed_props switch) = Some "distribution-switch" ->
  ((forall d, d ∈ devices ->
              subrole (parsed_props d) = Some "distribution-switch" ->
              index (parsed_props d) <> Some 1%Z) ->
   primary (get_stp_root devices) = None)
  /\ ((forall d, d ∈ devices ->
                 subrole (parsed_props d) = Some "distribution-switch" ->
                 index (parsed_props d) <> Some 2%Z) ->
      secondary (get_stp_root devices) = None)
  /\ get_stp_root devices
     = get_stp_root
         (filter (fun d => subrole (parsed_props d)
                           = Some "distribution-switch") devices).
Proof.
  intros Hsw Hsub.
  destruct (get_stp_root_candidates devices) as [Hp Hs].
  assert (Hcand : forall d, d ∈ stp_candidates devices ->
             d ∈ devices
             /\ subrole (parsed_props d) = Some "distribution-switch").
  { intros d [Hd [E | [_ Hno]]]%stp_candidates_elem; [auto|].
    destruct (Hno switch Hsw Hsub). }
  split; [|split].
  - intros Hno. rewrite Hp. apply last_filter_None.
    intros d Hd. destruct (Hcand d Hd). auto.
  - intros Hno. rewrite Hs. apply last_filter_None.
    intros d Hd. destruct (Hcand d Hd). auto.
  - unfold get_stp_root.
    rewrite (get_devices_with_subrole_filter _ devices "distribution-switch")
      by auto.
    destruct (get_devices_with_subrole devices "distribution-switch")
      as [|d l] eqn:Ed; [|reflexivity].
    assert (Hin : switch ∈ get_devices_with_subrole devices
                             "distribution-switch")
      by (apply list_elem_of_filter; auto).
    rewrite Ed in Hin. apply elem_of_nil in Hin. contradiction.
Qed.

Lemma distribution_switches_shadow_core_routers_witness :
  primary (get_stp_root [dist3; core1]) = None
  /\ index (parsed_props core1) = Some 1%Z.
Proof.
  split; [|reflexivity].
  apply (distribution_switches_shadow_core_routers [dist3; core1] dist3).
  - left.
  - reflexivity.
  - intros d Hd Hsub.
    repeat (apply elem_of_cons in Hd as [->|Hd]; [discriminate|]).
    apply elem_of_nil in Hd. contradiction.
Defined.

(** X18. Devices that are neither distribution switch nor core router do
    not matter: filtering the list by any test that keeps those two groups
    leaves the result of [get_stp_root] unchanged. *)
Theorem get_stp_root_ignores_others (devices : list device)
    (P : device -> Prop) `{!forall d, Decision (P d)} :
  (forall d, subrole (parsed_props d) = Some "distribution-switch" -> P d) ->
  (forall d, subrole (parsed_props d) = Some "core-router" -> P d) ->
  get_stp_root (filter P devices) = get_stp_root devices.
Proof.
  intros Hds Hcr. unfold get_stp_root.
  rewrite !get_devices_with_subrole_filter by assumption. reflexivity.
Qed.

Lemma get_stp_root_ignores_others_witness :
  get_stp_root
    (filter (fun d => is_Some (subrole (parsed_props d)))
       [unparsed_device; dist1; core2])
  = get_stp_root [unparsed_device; dist1; core2].
Proof.
  apply (get_stp_root_ignores_others [unparsed_device; dist1; core2]
           (fun d => is_Some (subrole (parsed_props d))));
    intros d ->; eauto.
Defined.

(** X19. Without ties the order does not matter: when no two devices of the
    list share both parsed subrole and parsed index, [get_stp_root] gives the
    same result on every reordering of the list. *)
Theorem get_stp_root_order_free (devices devices' : list device) :
  devices ≡ₚ devices' ->
  NoDup (stp_key <$> devices) ->
  get_stp_root devices = get_stp_root devices'.
Proof.
  intros Hperm Hnd.
  destruct (get_stp_root_candidates devices) as [Hp Hs].
  destruct (get_stp_root_candidates devices') as [Hp' Hs'].
  pose proof (stp_candidates_Permutation _ _ Hperm) as Hcand.
  destruct (stp_candidates_subrole devices) as [wanted Hwanted].
  assert (Hone : forall i,
             filter (fun x => index (parsed_props x) = Some i)
               (stp_candidates devices)
             = filter (fun x => index (parsed_props x) = Some i)
                 (stp_candidates devices')).
  { intros i. apply Permutation_at_most_one.
    - apply filter_Permutation, Hcand.
    - apply (at_most_one stp_key _ (Some wanted, Some i)).
      + eapply sublist_NoDup; [exact Hnd|].
        apply fmap_sublist.
        etransitivity; [apply sublist_filter|apply stp_candidates_sublist].
      + intros x [Hix Hx]%list_elem_of_filter. unfold stp_key.
        rewrite Hix, (Hwanted x Hx). reflexivity. }
  rewrite (Hone 1%Z) in Hp. rewrite (Hone 2%Z) in Hs.
  destruct (get_stp_root devices) as [p s], (get_stp_root devices') as [p' s'].
  cbn [primary secondary] in *. congruence.
Qed.

Lemma get_stp_root_order_free_witness :
  get_stp_root [dist1; core2; dist3] = get_stp_root [dist3; dist1; core2].
Proof.
  apply get_stp_root_order_free.
  - change ([dist1; core2] ++ [dist3] ≡ₚ [dist3] ++ [dist1; core2])%list.
    apply Permutation_app_comm.
  - vm_compute. repeat (apply NoDup_cons; split;
      [intros H; repeat (apply elem_of_cons in H as [H|H]; [discriminate H|]);
       apply elem_of_nil in H; exact H|]).
    apply NoDup_nil_2.
Defined.

(** X20. Parsing the device list of a run never raises and keeps the
    devices and their order: the result holds, position by position, each
    device with the record [parse_hostname] gives for it. *)
Theorem parse_devices_keeps_inventory (devices : list nb_device) :
  exists ds,
    parse_devices devices = Py.Ok ds
    /\ record <$> ds = devices
    /\ Forall (fun d => parse_hostname (record d) = Py.Ok d) ds.
Proof.
  destruct (parse_devices_spec devices) as (ds & Hds & Hrec & Hall).
  exists ds. split; [exact Hds|]. split; [exact Hrec|].
  eapply Forall_impl; [exact Hall|].
  intros [rec p] Hp. cbn [record parsed_props] in Hp.
  unfold parse_hostname. cbn [record]. rewrite Hp. reflexivity.
Qed.


